(** * Variant resolution and display merge of the product detail page

    A shallow embedding of the event handlers of
    [src/pages/ProductDetail.tsx] (React component [ProductDetail]):
    [handleVariantSelect], [clearVariantSelection], [handleAddToCart],
    [handleQuantityChange], the part of [fetchProductData] that installs a
    freshly fetched product, and the [disabled] attributes of the two
    quantity buttons.

    Modelling conventions.
    - JavaScript numbers that the handlers compute with (identifiers, stock
      levels, quantities, sort orders) are integers and are modelled as [Z];
      numbers that are only copied (prices, percentages, ratings) are [Q].
      [Infinity], which the code uses for "no stock bound", is a constructor
      of [StockLevel].  [NaN] has no counterpart: a variant whose stock
      [parseInt] could not read (a null or non-numeric stock) is outside the
      model, and so is every statement about stocks.
    - Strings are [string]; [toUpperCase], [toLowerCase] and the regular
      expression class [\s] are modelled on the ASCII range.
    - An optional field [f?: T] and a nullable field [T | null] are
      [option T].
    - A handler reads the values captured by the render in which it was
      created and queues state updates; it is modelled as a function of that
      snapshot into a small state-and-output monad whose output is the list
      of calls made to the toast and cart collaborators. *)

From Stdlib Require Import ZArith QArith List String Ascii Bool Lia.
From Stdlib Require Import DecimalString.
Import ListNotations.

Local Open Scope Z_scope.
Local Open Scope string_scope.
Local Open Scope list_scope.

(** ** JavaScript built-ins used by the component *)

Module JS.

Definition toUpperChar (c : ascii) : ascii :=
  let n := nat_of_ascii c in
  if andb (Nat.leb 97 n) (Nat.leb n 122) then ascii_of_nat (n - 32) else c.

Definition toLowerChar (c : ascii) : ascii :=
  let n := nat_of_ascii c in
  if andb (Nat.leb 65 n) (Nat.leb n 90) then ascii_of_nat (n + 32) else c.

Fixpoint mapString (f : ascii -> ascii) (s : string) : string :=
  match s with
  | EmptyString => EmptyString
  | String c s' => String (f c) (mapString f s')
  end.

(** [s.toUpperCase()], [s.toLowerCase()] *)
Definition toUpperCase : string -> string := mapString toUpperChar.
Definition toLowerCase : string -> string := mapString toLowerChar.

(** The class [\s]: tab, line feed, vertical tab, form feed, carriage
    return, space. *)
Definition isSpace (c : ascii) : bool :=
  let n := nat_of_ascii c in
  orb (andb (Nat.leb 9 n) (Nat.leb n 13)) (Nat.eqb n 32).

(** [s.replace(/\s+/g, '-')]: every maximal run of white space becomes one
    dash.  [inRun] tells that the previous character was white space. *)
Fixpoint replaceSpaceRuns (inRun : bool) (s : string) : string :=
  match s with
  | EmptyString => EmptyString
  | String c s' =>
      if isSpace c
      then if inRun then replaceSpaceRuns true s'
           else String "-"%char (replaceSpaceRuns true s')
      else String c (replaceSpaceRuns false s')
  end.

Definition dashed (s : string) : string := replaceSpaceRuns false s.

(** [String(n)] and [`${n}`] for an integer [n]. *)
Definition String_ (n : Z) : string := NilZero.string_of_int (Z.to_int n).

(** [xs.join(sep)] *)
Definition join (sep : string) (xs : list string) : string :=
  String.concat sep xs.

(** [a || b] where [a] is [string | undefined]: the empty string and
    [undefined] are falsy. *)
Definition or_ (a b : option string) : option string :=
  match a with
  | Some s => if (s =? "")%string then b else a
  | None => b
  end.

(** [a || b] where [b] is a string, so that the result is one. *)
Definition orElse (a : option string) (b : string) : string :=
  match a with
  | Some s => if (s =? "")%string then b else s
  | None => b
  end.

(** [a?.f] *)
Definition opt {A B : Type} (a : option A) (f : A -> B) : option B :=
  option_map f a.

(** [xs.map((x, index) => f x index)], the index counted from [i]. *)
Fixpoint mapi_from {A B : Type} (f : A -> Z -> B) (i : Z) (xs : list A)
  : list B :=
  match xs with
  | [] => []
  | x :: xs' => f x i :: mapi_from f (i + 1) xs'
  end.

Definition mapi {A B : Type} (f : A -> Z -> B) (xs : list A) : list B :=
  mapi_from f 0 xs.

End JS.

Infix "|||" := JS.or_ (at level 50, left associativity).

(** ** Interface definitions *)

Module ProductMedia.
Record t := mk {
  media_id : Z;
  type : string;
  url : string;
  sort_order : Z
}.
End ProductMedia.

Module ProductMeta.
Record t := mk {
  short_desc : option string;
  full_desc : option string;
  meta_title : option string;
  meta_desc : option string;
  meta_keywords : option string
}.
End ProductMeta.

Module ProductAttribute.
Record t := mk {
  attribute_id : Z;
  attribute_name : string;
  value_code : option string;
  value_text : string;
  value_label : option string;
  is_text_based : bool
}.
End ProductAttribute.

Module Category.
Record t := mk { category_id : Z; name : string }.
End Category.

Module Brand.
Record t := mk { brand_id : Z; name : string }.
End Brand.

Module ProductDetails.
Record t := mk {
  product_id : Z;
  product_name : string;
  cost_price : Q;
  selling_price : Q;
  discount_pct : Q;
  description : string;
  media : list ProductMedia.t;
  meta : option ProductMeta.t;
  attributes : list ProductAttribute.t;
  category : option Category.t;
  brand : option Brand.t;
  sku : option string;
  rating : option Q;
  reviews : option (list string);
  stock : option Z
}.
End ProductDetails.

Module VariantDefiningAttribute.
Record t := mk { name : string; value : string }.
End VariantDefiningAttribute.

Module VariantSpecificMedia.
Record t := mk {
  media_id : Z;
  media_url : string;
  media_type : string;
  is_primary : bool;
  display_order : Z
}.
End VariantSpecificMedia.

Module Variant.
Record t := mk {
  variant_id : Z;
  product_id : Z;
  sku : string;
  price : Q;
  stock : Z;
  attributes : list VariantDefiningAttribute.t;
  media : option (list VariantSpecificMedia.t)
}.
End Variant.

(** The stock a cart line is checked against: a number of units, or
    [Infinity] when the base product declares no stock. *)
Inductive StockLevel : Type :=
| Units (n : Z)
| Infinity.

Module CartProduct.
Record t := mk {
  id : string;
  product_id_ref : Z;
  name : string;
  price : Q;
  currency : string;
  image : string;
  stock : StockLevel;
  sku : string;
  category : string;
  brand_name : option string;
  variant_attributes : option (list VariantDefiningAttribute.t);
  isNew : option bool;
  cost_price : option Q;
  discount_pct : option Q
}.
End CartProduct.

Inductive TabType : Type := product_details | information | reviews_tab.

(** ** Component state *)

(** [displayData] has type [Partial<ProductDetails>]; the only values the
    component ever stores in it are the initial [{}] ([None]) and complete
    product objects. *)
Definition DisplayData := option ProductDetails.t.

Record ViewState := mkViewState {
  quantity : Z;
  selectedImage : string;
  activeTab : TabType;
  product : option ProductDetails.t;
  variants : list Variant.t;
  selectedVariant : option Variant.t;
  displayData : DisplayData;
  loading : bool;
  error : option string
}.

(** State of a freshly mounted component (the [useState] initial values). *)
Definition initialState : ViewState :=
  {| quantity := 1; selectedImage := ""; activeTab := product_details;
     product := None; variants := []; selectedVariant := None;
     displayData := None; loading := true; error := None |}.

(** Calls made to the collaborators: [toast.error], [toast.success] and the
    cart context's [addToCart]. *)
Inductive Effect : Type :=
| ToastError (msg : string)
| ToastSuccess (msg : string)
| CartAdd (item : CartProduct.t) (qty : Z).

(** ** The handler monad *)

Definition Handler (A : Type) : Type :=
  ViewState -> A * ViewState * list Effect.

Definition ret {A : Type} (a : A) : Handler A := fun s => (a, s, []).

Definition bind {A B : Type} (m : Handler A) (k : A -> Handler B)
  : Handler B :=
  fun s =>
    let '(a, s1, out1) := m s in
    let '(b, s2, out2) := k a s1 in
    (b, s2, out1 ++ out2).

Notation "m ;; k" := (bind m (fun _ => k))
  (at level 61, right associativity).

Definition emit (e : Effect) : Handler unit := fun s => (tt, s, [e]).

Definition setQuantityWith (f : Z -> Z) : Handler unit :=
  fun s =>
    (tt,
     {| quantity := f (quantity s); selectedImage := selectedImage s;
        activeTab := activeTab s; product := product s;
        variants := variants s; selectedVariant := selectedVariant s;
        displayData := displayData s; loading := loading s;
        error := error s |},
     []).

Definition setQuantity (q : Z) : Handler unit := setQuantityWith (fun _ => q).

Definition setSelectedImage (u : string) : Handler unit :=
  fun s =>
    (tt,
     {| quantity := quantity s; selectedImage := u;
        activeTab := activeTab s; product := product s;
        variants := variants s; selectedVariant := selectedVariant s;
        displayData := displayData s; loading := loading s;
        error := error s |},
     []).

Definition setSelectedVariant (v : option Variant.t) : Handler unit :=
  fun s =>
    (tt,
     {| quantity := quantity s; selectedImage := selectedImage s;
        activeTab := activeTab s; product := product s;
        variants := variants s; selectedVariant := v;
        displayData := displayData s; loading := loading s;
        error := error s |},
     []).

Definition setDisplayData (d : DisplayData) : Handler unit :=
  fun s =>
    (tt,
     {| quantity := quantity s; selectedImage := selectedImage s;
        activeTab := activeTab s; product := product s;
        variants := variants s; selectedVariant := selectedVariant s;
        displayData := d; loading := loading s;
        error := error s |},
     []).

(** Running a handler created by the render of state [s]: it reads the
    snapshot [s] and its updates apply to [s]. *)
Definition fire (h : ViewState -> Handler unit) (s : ViewState)
  : ViewState * list Effect :=
  let '(_, s', out) := h s s in (s', out).

Definition stateAfter (h : ViewState -> Handler unit) (s : ViewState)
  : ViewState := fst (fire h s).

Definition effectsOf (h : ViewState -> Handler unit) (s : ViewState)
  : list Effect := snd (fire h s).


(** ** Helpers shared by the handlers *)

Definition placeholderImage : string := "/placeholder-image.png".

(** [m.type === "IMAGE"] on base product media (case-sensitive). *)
Definition isImage (m : ProductMedia.t) : bool :=
  (ProductMedia.type m =? "IMAGE")%string.

(** [m.media_type.toUpperCase() === 'IMAGE'] on variant media. *)
Definition isVariantImage (m : VariantSpecificMedia.t) : bool :=
  (JS.toUpperCase (VariantSpecificMedia.media_type m) =? "IMAGE")%string.

Definition isPrimaryVariantImage (m : VariantSpecificMedia.t) : bool :=
  VariantSpecificMedia.is_primary m && isVariantImage m.

(** [variant.media && variant.media.length > 0] *)
Definition hasMedia (v : Variant.t) : bool :=
  match Variant.media v with
  | Some (_ :: _) => true
  | _ => false
  end.

(** [variant.media] where it is known to be defined. *)
Definition mediaOf (v : Variant.t) : list VariantSpecificMedia.t :=
  match Variant.media v with
  | Some ms => ms
  | None => []
  end.

(** The image chosen from base media alone, the statement shared by
    [fetchProductData], [clearVariantSelection] and the second branch of
    [handleVariantSelect]:
    [if (media && media.length > 0)
       media.find(m => m.type === "IMAGE")?.url || media[0].url
     else '/placeholder-image.png']. *)
Definition baseImage (p : ProductDetails.t) : string :=
  match ProductDetails.media p with
  | m0 :: _ =>
      JS.orElse
        (JS.opt (find isImage (ProductDetails.media p)) ProductMedia.url)
        (ProductMedia.url m0)
  | [] => placeholderImage
  end.

(** The entry of [variant.media.map(m => ({...}))]. *)
Definition toProductMedia (m : VariantSpecificMedia.t) : ProductMedia.t :=
  {| ProductMedia.media_id := VariantSpecificMedia.media_id m;
     ProductMedia.type := JS.toUpperCase (VariantSpecificMedia.media_type m);
     ProductMedia.url := VariantSpecificMedia.media_url m;
     ProductMedia.sort_order := VariantSpecificMedia.display_order m |}.

(** The entry of [variant.attributes.map((attr, index) => ({...}))]. *)
Definition toDisplayAttribute (variant : Variant.t)
  (attr : VariantDefiningAttribute.t) (index : Z) : ProductAttribute.t :=
  {| ProductAttribute.attribute_id :=
       - (Variant.variant_id variant * 1000 + index + 1);
     ProductAttribute.attribute_name := VariantDefiningAttribute.name attr;
     ProductAttribute.value_text := VariantDefiningAttribute.value attr;
     ProductAttribute.value_code :=
       Some (JS.dashed (JS.toLowerCase (VariantDefiningAttribute.name attr))
             ++ "-"
             ++ JS.dashed (JS.toLowerCase (VariantDefiningAttribute.value attr)))%string;
     ProductAttribute.value_label := Some (VariantDefiningAttribute.value attr);
     ProductAttribute.is_text_based := true |}.

(** [newDisplayData] of [handleVariantSelect]: the spread of the base
    product with five fields overridden. *)
Definition newDisplayData (product : ProductDetails.t) (variant : Variant.t)
  : ProductDetails.t :=
  {| ProductDetails.product_id := ProductDetails.product_id product;
     ProductDetails.product_name := ProductDetails.product_name product;
     ProductDetails.cost_price := ProductDetails.cost_price product;
     ProductDetails.discount_pct := ProductDetails.discount_pct product;
     ProductDetails.description := ProductDetails.description product;
     ProductDetails.meta := ProductDetails.meta product;
     ProductDetails.category := ProductDetails.category product;
     ProductDetails.brand := ProductDetails.brand product;
     ProductDetails.rating := ProductDetails.rating product;
     ProductDetails.reviews := ProductDetails.reviews product;
     ProductDetails.selling_price := Variant.price variant;
     ProductDetails.media :=
       if hasMedia variant
       then map toProductMedia (mediaOf variant)
       else ProductDetails.media product;
     ProductDetails.attributes :=
       JS.mapi (toDisplayAttribute variant) (Variant.attributes variant);
     ProductDetails.sku := Some (Variant.sku variant);
     ProductDetails.stock := Some (Variant.stock variant) |}.

(** ** Event handlers *)

(** The successful path of [fetchProductData]: the state once both
    responses have arrived for product [productData] with formatted variant
    list [formattedVariants]. *)
Definition fetchProductData (productData : ProductDetails.t)
  (formattedVariants : list Variant.t) : ViewState :=
  {| quantity := 1;
     selectedImage := baseImage productData;
     activeTab := product_details;
     product := Some productData;
     variants := formattedVariants;
     selectedVariant := None;
     displayData := Some productData;
     loading := false;
     error := None |}.

Definition handleVariantSelect (variant : Variant.t) (r : ViewState)
  : Handler unit :=
  match product r with
  | None => ret tt
  | Some product =>
      setSelectedVariant (Some variant) ;;
      setQuantity 1 ;;
      setDisplayData (Some (newDisplayData product variant)) ;;
      if hasMedia variant then
        let primaryVariantMedia :=
          find isPrimaryVariantImage (mediaOf variant) in
        let firstVariantImage := find isVariantImage (mediaOf variant) in
        setSelectedImage
          (JS.orElse
             (JS.opt primaryVariantMedia VariantSpecificMedia.media_url
              ||| JS.opt firstVariantImage VariantSpecificMedia.media_url
              ||| JS.opt (hd_error (ProductDetails.media product))
                         ProductMedia.url)
             placeholderImage)
      else
        setSelectedImage (baseImage product)
  end.

Definition clearVariantSelection (r : ViewState) : Handler unit :=
  match product r with
  | None => ret tt
  | Some product =>
      setSelectedVariant None ;;
      setDisplayData (Some product) ;;
      setQuantity 1 ;;
      setSelectedImage (baseImage product)
  end.

Definition notEnoughMessage : string := "Not enough items in stock.".
Definition outOfStockMessage : string := "This item is out of stock.".

(** The two failures of [handleAddToCart], as the calls that report them. *)
Definition InsufficientStock : Effect := ToastError notEnoughMessage.
Definition OutOfStock : Effect := ToastError outOfStockMessage.

(** [selectedVariant ? selectedVariant.stock : (product.stock ?? Infinity)] *)
Definition currentStock (product : ProductDetails.t)
  (selectedVariant : option Variant.t) : StockLevel :=
  match selectedVariant with
  | Some v => Units (Variant.stock v)
  | None =>
      match ProductDetails.stock product with
      | Some n => Units n
      | None => Infinity
      end
  end.

(** [currentStock < quantity] *)
Definition stockLt (st : StockLevel) (q : Z) : bool :=
  match st with
  | Units n => (n <? q)%Z
  | Infinity => false
  end.

(** [currentStock === 0] *)
Definition stockIsZero (st : StockLevel) : bool :=
  match st with
  | Units n => (n =? 0)%Z
  | Infinity => false
  end.

(** The object literal [cartProduct] of [handleAddToCart]. *)
Definition cartProduct (product : ProductDetails.t)
  (selectedVariant : option Variant.t) : CartProduct.t :=
  {| CartProduct.id :=
       match selectedVariant with
       | Some v =>
           (JS.String_ (ProductDetails.product_id product) ++ "-"
            ++ JS.String_ (Variant.variant_id v))%string
       | None => JS.String_ (ProductDetails.product_id product)
       end;
     CartProduct.product_id_ref := ProductDetails.product_id product;
     CartProduct.name :=
       match selectedVariant with
       | Some v =>
           (ProductDetails.product_name product ++ " ("
            ++ JS.join " / "
                 (map VariantDefiningAttribute.value (Variant.attributes v))
            ++ ")")%string
       | None => ProductDetails.product_name product
       end;
     CartProduct.price :=
       match selectedVariant with
       | Some v => Variant.price v
       | None => ProductDetails.selling_price product
       end;
     CartProduct.currency := "INR";
     CartProduct.image :=
       JS.orElse
         (match selectedVariant with
          | Some v =>
              match Variant.media v with
              | Some ms =>
                  JS.opt (find VariantSpecificMedia.is_primary ms)
                         VariantSpecificMedia.media_url
                  ||| JS.opt (hd_error ms) VariantSpecificMedia.media_url
              | None => None
              end
          | None => None
          end
          ||| JS.opt (hd_error (ProductDetails.media product))
                     ProductMedia.url)
         placeholderImage;
     CartProduct.stock := currentStock product selectedVariant;
     CartProduct.sku :=
       match selectedVariant with
       | Some v => Variant.sku v
       | None =>
           JS.orElse (ProductDetails.sku product)
             ("BASE-" ++ JS.String_ (ProductDetails.product_id product))%string
       end;
     CartProduct.category :=
       JS.orElse (JS.opt (ProductDetails.category product) Category.name)
                 "Uncategorized";
     CartProduct.brand_name := JS.opt (ProductDetails.brand product) Brand.name;
     CartProduct.variant_attributes :=
       match selectedVariant with
       | Some v => Some (Variant.attributes v)
       | None => None
       end;
     CartProduct.isNew := None;
     CartProduct.cost_price := Some (ProductDetails.cost_price product);
     CartProduct.discount_pct := Some (ProductDetails.discount_pct product) |}.

Definition handleAddToCart (r : ViewState) : Handler unit :=
  match product r with
  | None => ret tt
  | Some product =>
      let currentStock := currentStock product (selectedVariant r) in
      if stockLt currentStock (quantity r) then
        emit (ToastError notEnoughMessage)
      else if stockIsZero currentStock then
        emit (ToastError outOfStockMessage)
      else
        let cartProduct := cartProduct product (selectedVariant r) in
        emit (CartAdd cartProduct (quantity r)) ;;
        emit (ToastSuccess (CartProduct.name cartProduct ++ " added to cart!")%string)
  end.

Definition handleQuantityChange (amount : Z) (_ : ViewState) : Handler unit :=
  setQuantityWith (fun prev => Z.max 1 (prev + amount)).

(** The thumbnail buttons: [onClick={() => setSelectedImage(media.url)}]. *)
Definition handleThumbnailClick (url : string) (_ : ViewState)
  : Handler unit :=
  setSelectedImage url.

(** ** The quantity controls as rendered *)

(** [selectedVariant ? selectedVariant.stock : (product.stock ?? undefined)];
    the render reaches this line only with a product loaded. *)
Definition currentStockForDisplay (r : ViewState) : option Z :=
  match selectedVariant r with
  | Some v => Some (Variant.stock v)
  | None =>
      match product r with
      | Some p => ProductDetails.stock p
      | None => None
      end
  end.

Inductive QuantityButton : Type := Decrease | Increase.

(** The [disabled] attribute of each button. *)
Definition disabled (b : QuantityButton) (r : ViewState) : bool :=
  match b with
  | Decrease => (quantity r <=? 1)%Z
  | Increase =>
      match currentStockForDisplay r with
      | Some st => (quantity r >=? st)%Z
      | None => false
      end
  end.

Definition onClick (b : QuantityButton) : ViewState -> Handler unit :=
  match b with
  | Decrease => handleQuantityChange (-1)
  | Increase => handleQuantityChange 1
  end.

(** A click on a button: nothing happens on a disabled one. *)
Definition click (b : QuantityButton) (s : ViewState) : ViewState :=
  if disabled b s then s else stateAfter (onClick b) s.

Definition clicks (bs : list QuantityButton) (s : ViewState) : ViewState :=
  fold_left (fun s b => click b s) bs s.

(** ** Sequences of events *)

Inductive Event : Type :=
| Select (variant : Variant.t)
| Clear
| ChangeQuantity (amount : Z)
| AddToCart
| Thumbnail (url : string).

Definition handlerOf (e : Event) : ViewState -> Handler unit :=
  match e with
  | Select v => handleVariantSelect v
  | Clear => clearVariantSelection
  | ChangeQuantity d => handleQuantityChange d
  | AddToCart => handleAddToCart
  | Thumbnail u => handleThumbnailClick u
  end.

Definition step (s : ViewState) (e : Event) : ViewState :=
  stateAfter (handlerOf e) s.

Definition run (es : list Event) (s : ViewState) : ViewState :=
  fold_left step es s.


(** ** Sample data

    The product and variants of the specification's worked scenario, with
    media added to exercise the image rules. *)

Definition shirt : ProductDetails.t :=
  {| ProductDetails.product_id := 10;
     ProductDetails.product_name := "Shirt";
     ProductDetails.cost_price := 15%Q;
     ProductDetails.selling_price := 18%Q;
     ProductDetails.discount_pct := 5%Q;
     ProductDetails.description := "A shirt";
     ProductDetails.media :=
       [ProductMedia.mk 1 "VIDEO" "v.mp4" 0; ProductMedia.mk 2 "IMAGE" "a.jpg" 1];
     ProductDetails.meta := None;
     ProductDetails.attributes := [];
     ProductDetails.category := Some (Category.mk 4 "Apparel");
     ProductDetails.brand := Some (Brand.mk 9 "Acme");
     ProductDetails.sku := None;
     ProductDetails.rating := None;
     ProductDetails.reviews := None;
     ProductDetails.stock := None |}.

Definition variantM : Variant.t :=
  {| Variant.variant_id := 1; Variant.product_id := 10;
     Variant.sku := "SH-M"; Variant.price := 20%Q; Variant.stock := 3;
     Variant.attributes := [VariantDefiningAttribute.mk "Size" "M"];
     Variant.media :=
       Some [VariantSpecificMedia.mk 7 "m.mp4" "video" true 0] |}.

Definition variantL : Variant.t :=
  {| Variant.variant_id := 2; Variant.product_id := 10;
     Variant.sku := "SH-L"; Variant.price := 22%Q; Variant.stock := 0;
     Variant.attributes := [VariantDefiningAttribute.mk "Size" "L"];
     Variant.media := None |}.

Definition variantS : Variant.t :=
  {| Variant.variant_id := 3; Variant.product_id := 10;
     Variant.sku := "SH-S"; Variant.price := 19%Q; Variant.stock := 5;
     Variant.attributes :=
       [VariantDefiningAttribute.mk "Size" "S";
        VariantDefiningAttribute.mk "Color" "Red"];
     Variant.media :=
       Some [VariantSpecificMedia.mk 8 "s1.jpg" "image" false 0;
             VariantSpecificMedia.mk 9 "s2.jpg" "Image" true 1] |}.

Definition shirtLoaded : ViewState :=
  fetchProductData shirt [variantM; variantL; variantS].

Definition shirtWithM : ViewState :=
  stateAfter (handleVariantSelect variantM) shirtLoaded.


(** A product whose only media entry is a video, with one variant that has
    no media of its own. *)
Definition clip : ProductDetails.t :=
  {| ProductDetails.product_id := 12;
     ProductDetails.product_name := "Clip";
     ProductDetails.cost_price := 3%Q;
     ProductDetails.selling_price := 4%Q;
     ProductDetails.discount_pct := 0%Q;
     ProductDetails.description := "A clip";
     ProductDetails.media := [ProductMedia.mk 5 "VIDEO" "v.mp4" 0];
     ProductDetails.meta := None;
     ProductDetails.attributes := [];
     ProductDetails.category := None;
     ProductDetails.brand := None;
     ProductDetails.sku := Some "CLIP";
     ProductDetails.rating := None;
     ProductDetails.reviews := None;
     ProductDetails.stock := Some 4 |}.

Definition clipVariant : Variant.t :=
  {| Variant.variant_id := 4; Variant.product_id := 12;
     Variant.sku := "CLIP-B"; Variant.price := 5%Q; Variant.stock := 2;
     Variant.attributes := [VariantDefiningAttribute.mk "Color" "Blue"];
     Variant.media := None |}.

Definition clipLoaded : ViewState := fetchProductData clip [clipVariant].

(** ** Predicates used in the statements *)

(** [truthy a]: the JavaScript value [a : string | undefined] is truthy. *)
Definition truthy (a : option string) : bool :=
  match a with
  | Some u => negb (u =? "")%string
  | None => false
  end.

(** The preference order in the words of the specification: the variant's
    primary IMAGE entry, else the variant's first IMAGE entry, else the
    base product's first IMAGE entry, else the placeholder. *)
Definition selectedImageSpec (P : ProductDetails.t) (V : Variant.t)
  : string :=
  match find isPrimaryVariantImage (mediaOf V) with
  | Some m => VariantSpecificMedia.media_url m
  | None =>
      match find isVariantImage (mediaOf V) with
      | Some m => VariantSpecificMedia.media_url m
      | None =>
          match find isImage (ProductDetails.media P) with
          | Some m => ProductMedia.url m
          | None => placeholderImage
          end
      end
  end.

(** The IMAGE-preference rule over base media only, in the words of the
    specification: the base product's first IMAGE entry, else the
    placeholder. *)
Definition baseImageSpec (P : ProductDetails.t) : string :=
  match find isImage (ProductDetails.media P) with
  | Some m => ProductMedia.url m
  | None => placeholderImage
  end.

(** [quantity <= effectiveStock], where no declared stock bounds nothing. *)
Definition withinStock (q : Z) (st : StockLevel) : Prop :=
  match st with
  | Units n => q <= n
  | Infinity => True
  end.

(** The variant-merged shape of the display state: the five shadowed
    fields come from [V] together, every other field from [P]. *)
Record MergedShape (P : ProductDetails.t) (V : Variant.t)
  (d : ProductDetails.t) : Prop := {
  merged_price : ProductDetails.selling_price d = Variant.price V;
  merged_stock : ProductDetails.stock d = Some (Variant.stock V);
  merged_sku : ProductDetails.sku d = Some (Variant.sku V);
  merged_media :
    ProductDetails.media d =
      if hasMedia V then map toProductMedia (mediaOf V)
      else ProductDetails.media P;
  merged_attributes :
    ProductDetails.attributes d =
      JS.mapi (toDisplayAttribute V) (Variant.attributes V);
  base_product_id :
    ProductDetails.product_id d = ProductDetails.product_id P;
  base_product_name :
    ProductDetails.product_name d = ProductDetails.product_name P;
  base_cost_price :
    ProductDetails.cost_price d = ProductDetails.cost_price P;
  base_discount_pct :
    ProductDetails.discount_pct d = ProductDetails.discount_pct P;
  base_description :
    ProductDetails.description d = ProductDetails.description P;
  base_meta : ProductDetails.meta d = ProductDetails.meta P;
  base_category : ProductDetails.category d = ProductDetails.category P;
  base_brand : ProductDetails.brand d = ProductDetails.brand P;
  base_rating : ProductDetails.rating d = ProductDetails.rating P;
  base_reviews : ProductDetails.reviews d = ProductDetails.reviews P
}.

Definition ShowsBase (P : ProductDetails.t) (s : ViewState) : Prop :=
  selectedVariant s = None /\ displayData s = Some P.

Definition ShowsMerged (P : ProductDetails.t) (s : ViewState) : Prop :=
  exists V d,
    selectedVariant s = Some V /\ displayData s = Some d /\
    MergedShape P V d.

Definition Coherent (P : ProductDetails.t) (s : ViewState) : Prop :=
  product s = Some P /\ (ShowsBase P s \/ ShowsMerged P s).

(** Every declared stock is a count, that is an integer that is not
    negative: the base product's, when it has one, and each listed
    variant's.  That it is an integer is carried by the type of
    [Variant.stock]: a stock that [parseInt(String(vData.stock), 10)] turns
    into [NaN] is not a count. *)
Definition StocksNonNegative (P : ProductDetails.t) (vs : list Variant.t)
  : Prop :=
  (forall n, ProductDetails.stock P = Some n -> 0 <= n) /\
  Forall (fun v => 0 <= Variant.stock v) vs.

(** The selected image is the placeholder, the URL of a base media entry,
    or the URL of a media entry of the selected variant. *)
Definition ImageKnown (P : ProductDetails.t) (s : ViewState) : Prop :=
  selectedImage s = placeholderImage \/
  In (selectedImage s) (map ProductMedia.url (ProductDetails.media P)) \/
  exists V,
    selectedVariant s = Some V /\
    In (selectedImage s)
       (map VariantSpecificMedia.media_url (mediaOf V)).

(** A call that reports no failure: a line handed to the cart with a
    quantity of at least 1 and within the line's stock, or a success
    toast. *)
Definition SuccessfulCall (e : Effect) : Prop :=
  (exists c q,
      e = CartAdd c q /\ 1 <= q /\ withinStock q (CartProduct.stock c)) \/
  (exists msg, e = ToastSuccess msg).

(** What holds of the view of product [P] with variant list [vs] between
    two presses on its controls. *)
Definition PressInvariant (P : ProductDetails.t) (vs : list Variant.t)
  (s : ViewState) : Prop :=
  product s = Some P /\ variants s = vs /\ 1 <= quantity s /\
  displayData s =
    Some (match selectedVariant s with
          | Some V => newDisplayData P V
          | None => P
          end) /\
  (forall st, currentStockForDisplay s = Some st ->
              st = 0 \/ quantity s <= st) /\
  (forall V, selectedVariant s = Some V -> 0 < Variant.stock V) /\
  ImageKnown P s.

(** What holds of the display state and the selected image of product
    [P] between two presses, whatever the stocks. *)
Definition ImageInvariant (P : ProductDetails.t) (s : ViewState) : Prop :=
  product s = Some P /\
  displayData s =
    Some (match selectedVariant s with
          | Some V => newDisplayData P V
          | None => P
          end) /\
  ImageKnown P s.

(** ** The whole of [fetchProductData]

    One uninterrupted run of the effect, as a function of what the two
    requests produce.  The calls to [console.warn] and [console.error] leave
    no trace in the state and are not modelled; the body of the variants
    response is taken after the [rawVariantsData.map] that formats it. *)

(** A value caught by [catch (err)]: an [Error] with its message, or
    something that is not an [Error]. *)
Inductive Thrown : Type :=
| ErrorWith (message : string)
| NotAnError.

(** What [await fetch(url)] followed by [await response.json()] produces:
    the fetch rejects, or it resolves with a status and a body that parses
    or throws. *)
Inductive Fetched (A : Type) : Type :=
| Rejected (err : Thrown)
| Response (status : Z) (json : A + Thrown).

Arguments Rejected {A} err.
Arguments Response {A} status json.

(** [response.ok]: the status is in the range 200-299. *)
Definition ok (status : Z) : bool := ((200 <=? status) && (status <=? 299))%Z.

Definition setLoading (b : bool) : Handler unit :=
  fun s =>
    (tt,
     {| quantity := quantity s; selectedImage := selectedImage s;
        activeTab := activeTab s; product := product s;
        variants := variants s; selectedVariant := selectedVariant s;
        displayData := displayData s; loading := b;
        error := error s |},
     []).

Definition setError (e : option string) : Handler unit :=
  fun s =>
    (tt,
     {| quantity := quantity s; selectedImage := selectedImage s;
        activeTab := activeTab s; product := product s;
        variants := variants s; selectedVariant := selectedVariant s;
        displayData := displayData s; loading := loading s;
        error := e |},
     []).

Definition setProduct (p : option ProductDetails.t) : Handler unit :=
  fun s =>
    (tt,
     {| quantity := quantity s; selectedImage := selectedImage s;
        activeTab := activeTab s; product := p;
        variants := variants s; selectedVariant := selectedVariant s;
        displayData := displayData s; loading := loading s;
        error := error s |},
     []).

Definition setVariants (vs : list Variant.t) : Handler unit :=
  fun s =>
    (tt,
     {| quantity := quantity s; selectedImage := selectedImage s;
        activeTab := activeTab s; product := product s;
        variants := vs; selectedVariant := selectedVariant s;
        displayData := displayData s; loading := loading s;
        error := error s |},
     []).

(** [throw err] inside the [try] block; a block returns [Some err] when it
    threw and [None] when it ran to its end. *)
Definition throw (err : Thrown) : Handler (option Thrown) := ret (Some err).
Definition completed : Handler (option Thrown) := ret None.

(** [err instanceof Error ? err.message : 'An unknown error occurred.'] *)
Definition errorMessage (err : Thrown) : string :=
  match err with
  | ErrorWith message => message
  | NotAnError => "An unknown error occurred."
  end.

(** The [try] block of [fetchProductData]. *)
Definition fetchProductDataTry
  (productResponse : Fetched ProductDetails.t)
  (variantsResponse : Fetched (list Variant.t)) : Handler (option Thrown) :=
  match productResponse with
  | Rejected err => throw err
  | Response status json =>
      if negb (ok status) then
        if (status =? 404)%Z then throw (ErrorWith "Product not found.")
        else
          throw (ErrorWith ("Failed to fetch product details: "
                            ++ JS.String_ status)%string)
      else
        match json with
        | inr err => throw err
        | inl productData =>
            setProduct (Some productData) ;;
            setDisplayData (Some productData) ;;
            setSelectedImage (baseImage productData) ;;
            match variantsResponse with
            | Rejected err => throw err
            | Response vstatus vjson =>
                if negb (ok vstatus) then setVariants [] ;; completed
                else
                  match vjson with
                  | inr err => throw err
                  | inl formattedVariants =>
                      setVariants formattedVariants ;; completed
                  end
            end
        end
  end.

(** The effect run for route parameter [productId]. *)
Definition fetchProductDataEffect (productId : option string)
  (productResponse : Fetched ProductDetails.t)
  (variantsResponse : Fetched (list Variant.t)) (_ : ViewState)
  : Handler unit :=
  if negb (truthy productId) then ret tt
  else
    setLoading true ;;
    setError None ;;
    setSelectedVariant None ;;
    setQuantity 1 ;;
    bind (fetchProductDataTry productResponse variantsResponse)
      (fun thrown =>
         match thrown with
         | Some err => setError (Some (errorMessage err))
         | None => ret tt
         end) ;;
    setLoading false.

(** ** What the component renders *)

Inductive Screen : Type :=
| LoadingScreen
| NotFoundScreen (message : string)
| MainScreen.

(** The two early returns of the component and the main return. *)
Definition screen (r : ViewState) : Screen :=
  if loading r then LoadingScreen
  else if truthy (error r)
          || match product r with Some _ => false | None => true end
          || match displayData r with
             | Some d => (ProductDetails.product_id d =? 0)%Z
             | None => true
             end
  then
    NotFoundScreen
      (JS.orElse (error r)
         "The product you're looking for doesn't exist or may have been removed.")
  else MainScreen.

(** [media.type.toUpperCase() === "IMAGE"], the filter of the thumbnail
    strip. *)
Definition isThumbnail (m : ProductMedia.t) : bool :=
  (JS.toUpperCase (ProductMedia.type m) =? "IMAGE")%string.

(** The thumbnail strip:
    [displayData.media && displayData.media.length > 1 &&
     displayData.media.filter(...).map(...)]. *)
Definition thumbnails (r : ViewState) : list ProductMedia.t :=
  match displayData r with
  | Some d =>
      if (1 <? Z.of_nat (List.length (ProductDetails.media d)))%Z
      then filter isThumbnail (ProductDetails.media d)
      else []
  | None => []
  end.

(** [renderVariantDefiningAttributesInTable]: one row (label, value) per
    display attribute, only with a variant selected. *)
Definition renderVariantDefiningAttributesInTable (r : ViewState)
  : list (string * string) :=
  match selectedVariant r, displayData r with
  | Some _, Some d =>
      map (fun attr =>
             ((ProductAttribute.attribute_name attr ++ " (Selected)")%string,
              ProductAttribute.value_text attr))
          (ProductDetails.attributes d)
  | _, _ => []
  end.

(** [renderProductSpecificationAttributes]: one row per general attribute
    of the base product. *)
Definition renderProductSpecificationAttributes (r : ViewState)
  : list (string * string) :=
  match product r with
  | Some p =>
      map (fun attr =>
             (ProductAttribute.attribute_name attr,
              if ProductAttribute.is_text_based attr
              then ProductAttribute.value_text attr
              else JS.orElse (ProductAttribute.value_label attr)
                             (ProductAttribute.value_text attr)))
          (ProductDetails.attributes p)
  | None => []
  end.

(** [isSelected] of a variant option button:
    [selectedVariant?.variant_id === variant.variant_id]. *)
Definition isSelected (r : ViewState) (variant : Variant.t) : bool :=
  match selectedVariant r with
  | Some v => (Variant.variant_id v =? Variant.variant_id variant)%Z
  | None => false
  end.

(** [optionImage] of a variant option button:
    [variant.media?.find(primary IMAGE)?.media_url ||
     variant.media?.find(IMAGE)?.media_url]. *)
Definition optionImage (variant : Variant.t) : option string :=
  match Variant.media variant with
  | Some ms =>
      JS.opt (find isPrimaryVariantImage ms) VariantSpecificMedia.media_url
      ||| JS.opt (find isVariantImage ms) VariantSpecificMedia.media_url
  | None => None
  end.

(** [isOutOfStock] of a variant option button, its [disabled] attribute. *)
Definition isOutOfStock (variant : Variant.t) : bool :=
  (Variant.stock variant =? 0)%Z.

(** [disabled={currentStockForDisplay === 0}] of the Add To Cart button. *)
Definition addToCartDisabled (r : ViewState) : bool :=
  match currentStockForDisplay r with
  | Some st => (st =? 0)%Z
  | None => false
  end.

(** The controls of the main screen that reach a handler.  A variant option
    and a thumbnail are named by their position in the rendered list. *)
Inductive Control : Type :=
| VariantOption (index : nat)
| ShowBaseDetails
| QuantityControl (b : QuantityButton)
| AddToCartButton
| ThumbnailButton (index : nat).

(** A press on a control: it reaches its handler when the main screen is
    rendered, the control is rendered and it is not disabled. *)
Definition press (c : Control) (r : ViewState) : ViewState * list Effect :=
  match screen r with
  | MainScreen =>
      match c with
      | VariantOption i =>
          match nth_error (variants r) i with
          | Some variant =>
              if isOutOfStock variant then (r, [])
              else fire (handleVariantSelect variant) r
          | None => (r, [])
          end
      | ShowBaseDetails =>
          match variants r, selectedVariant r with
          | _ :: _, Some _ => fire clearVariantSelection r
          | _, _ => (r, [])
          end
      | QuantityControl b => (click b r, [])
      | AddToCartButton =>
          if addToCartDisabled r then (r, []) else fire handleAddToCart r
      | ThumbnailButton i =>
          match nth_error (thumbnails r) i with
          | Some media => fire (handleThumbnailClick (ProductMedia.url media)) r
          | None => (r, [])
          end
      end
  | _ => (r, [])
  end.

(** A series of presses, with all the calls they made. *)
Fixpoint presses (cs : list Control) (s : ViewState)
  : ViewState * list Effect :=
  match cs with
  | [] => (s, [])
  | c :: cs' =>
      let '(s1, out1) := press c s in
      let '(s2, out2) := presses cs' s1 in
      (s2, out1 ++ out2)
  end.

(** ** The homepage product sections

    The paging logic of the [HomepageProducts] component: which products of
    a category section are active, which are visible on the current page,
    how many pages there are, and the handlers that change tab and page.
    These functions move products around without looking inside them, so
    the type of products is a parameter.  [categoryStates], a
    [Record<number, CategoryState>], is a map from category identifiers to
    optional states. *)

Module Homepage.

Module Category.
Record t := mk {
  category_id : Z;
  name : string;
  slug : string;
  icon_url : option string
}.
End Category.

Module Subcategory.
Record t (Product : Type) := mk {
  category : Category.t;
  products : list Product
}.
Arguments mk {Product} category products.
Arguments category {Product} t.
Arguments products {Product} t.
End Subcategory.

Module CategoryWithProducts.
Record t (Product : Type) := mk {
  category : Category.t;
  products : list Product;
  subcategories : list (Subcategory.t Product)
}.
Arguments mk {Product} category products subcategories.
Arguments category {Product} t.
Arguments products {Product} t.
Arguments subcategories {Product} t.
End CategoryWithProducts.

Module CategoryState.
Record t := mk {
  activeCategory : string;
  currentPage : Z
}.
End CategoryState.

Definition CategoryStates := Z -> option CategoryState.t.

(** [{}] *)
Definition noStates : CategoryStates := fun _ => None.

(** [{...prev, [categoryId]: st}] *)
Definition assign (categoryId : Z) (st : CategoryState.t)
  (prev : CategoryStates) : CategoryStates :=
  fun k => if (k =? categoryId)%Z then Some st else prev k.

(** [xs.slice(start, end)], negative indices counting from the end. *)
Definition slice {A : Type} (xs : list A) (start end_ : Z) : list A :=
  let len := Z.of_nat (List.length xs) in
  let k := if (start <? 0)%Z then Z.max (len + start) 0 else Z.min start len in
  let final :=
    if (end_ <? 0)%Z then Z.max (len + end_) 0 else Z.min end_ len in
  firstn (Z.to_nat (final - k)) (skipn (Z.to_nat k) xs).

(** [Math.ceil(a / b)] for integers [a] and [b > 0]. *)
Definition ceilDiv (a b : Z) : Z := - ((- a) / b).

(** [number || 1] *)
Definition orOne (n : option Z) : Z :=
  match n with
  | Some k => if (k =? 0)%Z then 1 else k
  | None => 1
  end.

(** The body of [updateItemsPerView], for the window width. *)
Definition updateItemsPerView (width : Z) : Z :=
  if (width <? 640)%Z then 1
  else if (width <? 768)%Z then 2
  else if (width <? 1024)%Z then 3
  else 4.

(** The states installed by [fetchHomepageProducts] on success:
    [data.data.forEach(category => initialStates[id] = {...})]. *)
Definition initialStates {Product : Type}
  (data : list (CategoryWithProducts.t Product)) : CategoryStates :=
  fold_left
    (fun states categoryData =>
       assign
         (Category.category_id (CategoryWithProducts.category categoryData))
         (CategoryState.mk "All" 1) states)
    data noStates.

Definition getActiveCategoryProducts {Product : Type}
  (categoryStates : CategoryStates)
  (categoryData : CategoryWithProducts.t Product) : list Product :=
  let categoryState :=
    categoryStates
      (Category.category_id (CategoryWithProducts.category categoryData)) in
  let activeCategory :=
    JS.orElse (JS.opt categoryState CategoryState.activeCategory)
      (Category.name (CategoryWithProducts.category categoryData)) in
  if (activeCategory =? "All")%string then
    flat_map Subcategory.products
      (CategoryWithProducts.subcategories categoryData)
  else
    match
      find (fun sub =>
              (Category.name (Subcategory.category sub) =? activeCategory)
                %string)
           (CategoryWithProducts.subcategories categoryData)
    with
    | Some selectedSubcategory => Subcategory.products selectedSubcategory
    | None => []
    end.

Definition getVisibleProducts {Product : Type}
  (categoryStates : CategoryStates) (itemsPerView : Z)
  (categoryData : CategoryWithProducts.t Product) : list Product :=
  let categoryState :=
    categoryStates
      (Category.category_id (CategoryWithProducts.category categoryData)) in
  let currentPage :=
    orOne (option_map CategoryState.currentPage categoryState) in
  let allProducts := getActiveCategoryProducts categoryStates categoryData in
  let startIndex := (currentPage - 1) * itemsPerView in
  let endIndex := startIndex + itemsPerView in
  slice allProducts startIndex endIndex.

Definition getTotalPages {Product : Type}
  (categoryStates : CategoryStates) (itemsPerView : Z)
  (categoryData : CategoryWithProducts.t Product) : Z :=
  let totalProducts :=
    Z.of_nat
      (List.length (getActiveCategoryProducts categoryStates categoryData)) in
  ceilDiv totalProducts itemsPerView.

(** The updater of [handleCategoryChange]; spreading a missing state
    spreads nothing. *)
Definition handleCategoryChange (categoryId : Z) (categoryName : string)
  (prev : CategoryStates) : CategoryStates :=
  assign categoryId (CategoryState.mk categoryName 1) prev.

(** The updater of [handlePrevPage]; [None] when reading
    [prev[categoryId].currentPage] throws. *)
Definition handlePrevPage (categoryId : Z) (prev : CategoryStates)
  : option CategoryStates :=
  match prev categoryId with
  | None => None
  | Some st =>
      Some (assign categoryId
              (CategoryState.mk (CategoryState.activeCategory st)
                 (Z.max (CategoryState.currentPage st - 1) 1))
              prev)
  end.

(** The updater of [handleNextPage], created by a render with
    [categoriesWithProducts], [categoryStates] and [itemsPerView]; [None]
    when reading [prev[categoryId].currentPage] throws or when
    [getTotalPages] is handed [undefined]. *)
Definition handleNextPage {Product : Type}
  (categoriesWithProducts : list (CategoryWithProducts.t Product))
  (categoryStates : CategoryStates) (itemsPerView : Z)
  (categoryId : Z) (prev : CategoryStates) : option CategoryStates :=
  match prev categoryId with
  | None => None
  | Some st =>
      match
        find (fun c =>
                (Category.category_id (CategoryWithProducts.category c)
                 =? categoryId)%Z)
             categoriesWithProducts
      with
      | None => None
      | Some categoryData =>
          Some (assign categoryId
                  (CategoryState.mk (CategoryState.activeCategory st)
                     (Z.min (CategoryState.currentPage st + 1)
                        (getTotalPages categoryStates itemsPerView
                           categoryData)))
                  prev)
      end
  end.

(** A section with five subcategory products and a section with none,
    for the examples. *)
Definition gadgets : CategoryWithProducts.t string :=
  CategoryWithProducts.mk (Category.mk 7 "Gadgets" "gadgets" None)
    ["own"]
    [Subcategory.mk (Category.mk 71 "Phones" "phones" None)
       ["p1"; "p2"; "p3"];
     Subcategory.mk (Category.mk 72 "Watches" "watches" None) ["w1"; "w2"]].

Definition emptySection : CategoryWithProducts.t string :=
  CategoryWithProducts.mk (Category.mk 8 "Empty" "empty" None) [] [].

End Homepage.

(** ** Facts about the handlers *)

Ltac unfold_handlers :=
  unfold stateAfter, effectsOf, fire, step, handlerOf,
    handleVariantSelect, clearVariantSelection, handleAddToCart,
    handleQuantityChange, handleThumbnailClick,
    bind, ret, emit, setQuantity, setQuantityWith, setSelectedImage,
    setSelectedVariant, setDisplayData.

Section Handlers.

Variable s : ViewState.

Lemma select_not_loaded (V : Variant.t) :
  product s = None -> fire (handleVariantSelect V) s = (s, []).
Proof. intros H. unfold_handlers. rewrite H. reflexivity. Qed.

Lemma clear_not_loaded :
  product s = None -> fire clearVariantSelection s = (s, []).
Proof. intros H. unfold_handlers. rewrite H. reflexivity. Qed.

Lemma select_fields (P : ProductDetails.t) (V : Variant.t) :
  product s = Some P ->
  let s' := stateAfter (handleVariantSelect V) s in
  quantity s' = 1 /\ selectedVariant s' = Some V /\
  displayData s' = Some (newDisplayData P V) /\
  product s' = product s /\ variants s' = variants s /\
  activeTab s' = activeTab s /\ loading s' = loading s /\
  error s' = error s.
Proof.
  intros H. unfold_handlers. rewrite H.
  destruct (hasMedia V); cbn; repeat split; congruence.
Qed.

Lemma select_image_with_media (P : ProductDetails.t) (V : Variant.t) :
  product s = Some P -> hasMedia V = true ->
  selectedImage (stateAfter (handleVariantSelect V) s) =
  JS.orElse
    (JS.opt (find isPrimaryVariantImage (mediaOf V))
            VariantSpecificMedia.media_url
     ||| JS.opt (find isVariantImage (mediaOf V))
                VariantSpecificMedia.media_url
     ||| JS.opt (hd_error (ProductDetails.media P)) ProductMedia.url)
    placeholderImage.
Proof.
  intros H HM. unfold_handlers. rewrite H, HM. reflexivity.
Qed.

Lemma select_image_without_media (P : ProductDetails.t) (V : Variant.t) :
  product s = Some P -> hasMedia V = false ->
  selectedImage (stateAfter (handleVariantSelect V) s) = baseImage P.
Proof.
  intros H HM. unfold_handlers. rewrite H, HM. reflexivity.
Qed.

Lemma clear_fields (P : ProductDetails.t) :
  product s = Some P ->
  let s' := stateAfter clearVariantSelection s in
  quantity s' = 1 /\ selectedVariant s' = None /\
  displayData s' = Some P /\ selectedImage s' = baseImage P /\
  product s' = product s /\ variants s' = variants s /\
  activeTab s' = activeTab s /\ loading s' = loading s /\
  error s' = error s.
Proof.
  intros H. unfold_handlers. rewrite H. cbn. repeat split; congruence.
Qed.

Lemma addToCart_state : stateAfter handleAddToCart s = s.
Proof.
  unfold_handlers. destruct (product s) as [P|]; [|reflexivity].
  destruct (stockLt _ _); [reflexivity|].
  destruct (stockIsZero _); reflexivity.
Qed.

Lemma changeQuantity_fields (d : Z) :
  let s' := stateAfter (handleQuantityChange d) s in
  quantity s' = Z.max 1 (quantity s + d) /\
  selectedVariant s' = selectedVariant s /\
  displayData s' = displayData s /\ selectedImage s' = selectedImage s /\
  product s' = product s.
Proof. unfold_handlers. cbn. repeat split; reflexivity. Qed.

Lemma thumbnail_fields (u : string) :
  let s' := stateAfter (handleThumbnailClick u) s in
  quantity s' = quantity s /\ selectedVariant s' = selectedVariant s /\
  displayData s' = displayData s /\ selectedImage s' = u /\
  product s' = product s.
Proof. unfold_handlers. cbn. repeat split; reflexivity. Qed.

End Handlers.

(** ** Facts about the built-ins and the merge *)

Example String_of_id : JS.String_ 10 = "10" /\ JS.String_ 0 = "0".
Proof. split; reflexivity. Qed.

Example toUpperCase_kind : JS.toUpperCase "Image" = "IMAGE".
Proof. reflexivity. Qed.

Example dashed_runs :
  JS.dashed (JS.toLowerCase "Sleeve  Length") = "sleeve-length".
Proof. reflexivity. Qed.

Example join_values : JS.join " / " ["S"; "Red"] = "S / Red".
Proof. reflexivity. Qed.

Example toDisplayAttribute_sample :
  toDisplayAttribute variantS (VariantDefiningAttribute.mk "Color" "Red") 1
  = ProductAttribute.mk (-3002) "Color" (Some "color-red") "Red" (Some "Red")
      true.
Proof. reflexivity. Qed.

Lemma mapi_from_length {A B : Type} (f : A -> Z -> B) (xs : list A) :
  forall i, List.length (JS.mapi_from f i xs) = List.length xs.
Proof. induction xs as [|x xs IH]; intros i; cbn; [|rewrite IH]; reflexivity. Qed.

Lemma mapi_from_nth {A B : Type} (f : A -> Z -> B) (xs : list A) :
  forall (n : nat) (i : Z) (x : A),
    nth_error xs n = Some x ->
    nth_error (JS.mapi_from f i xs) n = Some (f x (i + Z.of_nat n)).
Proof.
  induction xs as [|y xs IH]; intros [|n] i x Hn; cbn in *; try discriminate.
  - injection Hn as ->. f_equal. f_equal. lia.
  - rewrite (IH n (i + 1) x Hn). f_equal. f_equal. lia.
Qed.

Lemma hasMedia_true (V : Variant.t) :
  hasMedia V = true <->
  exists m ms, Variant.media V = Some (m :: ms).
Proof.
  unfold hasMedia. destruct (Variant.media V) as [[|m ms]|]; split;
    try discriminate; try (intros (m' & ms' & H); discriminate).
  - intros _. now exists m, ms.
  - reflexivity.
Qed.

Lemma hasMedia_false (V : Variant.t) :
  hasMedia V = false <->
  Variant.media V = None \/ Variant.media V = Some [].
Proof.
  unfold hasMedia. destruct (Variant.media V) as [[|m ms]|]; split;
    try discriminate; auto.
  intros [H|H]; discriminate.
Qed.

Lemma orElse_truthy (u d : string) : u <> "" -> JS.orElse (Some u) d = u.
Proof.
  intros H. unfold JS.orElse. destruct (String.eqb_spec u ""); congruence.
Qed.

Lemma or_truthy (u : string) (b : option string) :
  u <> "" -> Some u ||| b = Some u.
Proof.
  intros H. unfold JS.or_. destruct (String.eqb_spec u ""); congruence.
Qed.

Lemma or_falsy (a b : option string) : truthy a = false -> a ||| b = b.
Proof.
  destruct a as [u|]; cbn; [|reflexivity].
  destruct (u =? "")%string; [reflexivity|discriminate].
Qed.

Lemma or_else_falsy (a : option string) (d : string) :
  truthy a = false -> JS.orElse a d = d.
Proof.
  destruct a as [u|]; cbn; [|reflexivity].
  destruct (u =? "")%string; [reflexivity|discriminate].
Qed.

Lemma baseImage_first_image (P : ProductDetails.t) (m : ProductMedia.t) :
  find isImage (ProductDetails.media P) = Some m ->
  ProductMedia.url m <> "" ->
  baseImage P = ProductMedia.url m.
Proof.
  intros Hf Hu. unfold baseImage.
  destruct (ProductDetails.media P) as [|m0 ms] eqn:E; [discriminate|].
  rewrite Hf. cbn. now apply orElse_truthy.
Qed.

(** ** Selecting a variant *)

(** C3. With a base product [P] loaded, after [select(V)] the display state
    carries [V]'s price, stock and sku; its media are [V]'s media entries
    when [V] has any, entry by entry in the same order with the same
    identifier, URL and order and with the kind in upper case, and [P]'s
    media otherwise; its attributes are [V]'s defining attributes, one
    display attribute per defining attribute in the same order, with the
    name and value carried over and marked text-based; and the requested
    quantity is 1. *)
Theorem select_display_state
  (s : ViewState) (P : ProductDetails.t) (V : Variant.t) :
  product s = Some P ->
  let s' := stateAfter (handleVariantSelect V) s in
  selectedVariant s' = Some V /\
  quantity s' = 1 /\
  exists d,
    displayData s' = Some d /\
    ProductDetails.selling_price d = Variant.price V /\
    ProductDetails.stock d = Some (Variant.stock V) /\
    ProductDetails.sku d = Some (Variant.sku V) /\
    (forall ms, Variant.media V = Some ms -> ms <> [] ->
       ProductDetails.media d = map toProductMedia ms) /\
    (forall ms, Variant.media V = Some ms -> ms <> [] ->
       List.length (ProductDetails.media d) = List.length ms /\
       forall n m, nth_error ms n = Some m ->
         exists m',
           nth_error (ProductDetails.media d) n = Some m' /\
           ProductMedia.media_id m' = VariantSpecificMedia.media_id m /\
           ProductMedia.url m' = VariantSpecificMedia.media_url m /\
           ProductMedia.type m'
             = JS.toUpperCase (VariantSpecificMedia.media_type m) /\
           ProductMedia.sort_order m'
             = VariantSpecificMedia.display_order m) /\
    (Variant.media V = None \/ Variant.media V = Some [] ->
       ProductDetails.media d = ProductDetails.media P) /\
    List.length (ProductDetails.attributes d)
      = List.length (Variant.attributes V) /\
    (forall n a, nth_error (Variant.attributes V) n = Some a ->
       exists a',
         nth_error (ProductDetails.attributes d) n = Some a' /\
         ProductAttribute.attribute_name a' = VariantDefiningAttribute.name a /\
         ProductAttribute.value_text a' = VariantDefiningAttribute.value a /\
         ProductAttribute.value_label a'
           = Some (VariantDefiningAttribute.value a) /\
         ProductAttribute.is_text_based a' = true /\
         ProductAttribute.attribute_id a'
           = - (Variant.variant_id V * 1000 + Z.of_nat n + 1) /\
         ProductAttribute.value_code a'
           = Some (JS.dashed
                     (JS.toLowerCase (VariantDefiningAttribute.name a))
                   ++ "-"
                   ++ JS.dashed
                        (JS.toLowerCase (VariantDefiningAttribute.value a)))
               %string).
Proof.
  intros HP s'.
  destruct (select_fields s P V HP) as (Hq & Hv & Hd & _).
  split; [exact Hv|]. split; [exact Hq|].
  exists (newDisplayData P V). split; [exact Hd|].
  assert (Hmedia : forall ms, Variant.media V = Some ms -> ms <> [] ->
            ProductDetails.media (newDisplayData P V)
            = map toProductMedia ms).
  { intros ms Hms Hne. cbn. unfold hasMedia, mediaOf. rewrite Hms.
    destruct ms; [contradiction|reflexivity]. }
  split; [reflexivity|]. split; [reflexivity|]. split; [reflexivity|].
  split; [exact Hmedia|].
  split.
  { intros ms Hms Hne. rewrite (Hmedia ms Hms Hne).
    split; [apply length_map|].
    intros n m Hn. exists (toProductMedia m).
    split; [now apply map_nth_error|].
    split; [reflexivity|]. split; [reflexivity|].
    split; reflexivity. }
  split.
  { intros HM. apply hasMedia_false in HM. cbn. rewrite HM. reflexivity. }
  split.
  { cbn. apply mapi_from_length. }
  intros n a Hn. cbn. unfold JS.mapi.
  eexists. split; [apply mapi_from_nth; exact Hn|].
  cbn. split; [reflexivity|]. split; [reflexivity|]. split; [reflexivity|].
  split; [reflexivity|]. split; reflexivity.
Qed.

Lemma select_display_state_witness :
  product shirtLoaded = Some shirt /\
  quantity (stateAfter (handleVariantSelect variantS) shirtLoaded) = 1 /\
  selectedVariant (stateAfter (handleVariantSelect variantS) shirtLoaded)
    = Some variantS /\
  option_map
    (fun d => map ProductMedia.url (ProductDetails.media d))
    (displayData (stateAfter (handleVariantSelect variantS) shirtLoaded))
  = Some ["s1.jpg"; "s2.jpg"].
Proof.
  split; [reflexivity|].
  destruct (select_display_state shirtLoaded shirt variantS eq_refl)
    as (Hv & Hq & d & Hd & _ & _ & _ & Hm & _).
  split; [exact Hq|]. split; [exact Hv|].
  rewrite Hd. cbn [option_map]. rewrite (Hm _ eq_refl); [reflexivity|].
  discriminate.
Defined.

(** ** Clearing the selection *)

(** C4, as stated, fails: the only media entry of [clip] is a video, and
    after a selection and a clearing the selected image is that video's
    URL, where the IMAGE-preference rule over base media gives the
    placeholder. *)
Lemma clear_image_counterexample :
  selectedImage
    (stateAfter clearVariantSelection
       (stateAfter (handleVariantSelect clipVariant) clipLoaded))
  = "v.mp4" /\
  baseImageSpec clip = placeholderImage /\
  selectedImage
    (stateAfter clearVariantSelection
       (stateAfter (handleVariantSelect clipVariant) clipLoaded))
  <> baseImageSpec clip.
Proof.
  split; [reflexivity|]. split; [reflexivity|].
  vm_compute. discriminate.
Qed.

(** C4, amended. With a base product [P] loaded, [clear()] after
    [select(V)] leaves the display state equal to [P] itself, no variant
    selected, quantity 1, and the selected image chosen from [P]'s media
    alone, as when [P] was loaded: the non-empty URL of [P]'s first IMAGE
    entry, else the URL of [P]'s first media entry of any kind, else the
    placeholder when [P] has no media.  In particular a select/clear round
    trip from a state displaying [P] gives back the same display state. *)
Theorem clear_after_select_restores_base
  (s : ViewState) (P : ProductDetails.t) (V : Variant.t) :
  product s = Some P ->
  let s' :=
    stateAfter clearVariantSelection (stateAfter (handleVariantSelect V) s) in
  displayData s' = Some P /\
  selectedVariant s' = None /\
  quantity s' = 1 /\
  selectedImage s' = selectedImage (fetchProductData P (variants s)) /\
  (forall m, find isImage (ProductDetails.media P) = Some m ->
             ProductMedia.url m <> "" ->
             selectedImage s' = ProductMedia.url m) /\
  (forall m0 ms, ProductDetails.media P = m0 :: ms ->
     truthy (JS.opt (find isImage (ProductDetails.media P)) ProductMedia.url)
       = false ->
     selectedImage s' = ProductMedia.url m0) /\
  (ProductDetails.media P = [] -> selectedImage s' = placeholderImage) /\
  (displayData s = Some P -> displayData s' = displayData s).
Proof.
  intros HP s'.
  destruct (select_fields s P V HP) as (_ & _ & _ & HP' & _).
  rewrite HP in HP'.
  destruct (clear_fields _ P HP') as (Hq & Hv & Hd & Hi & _).
  fold s' in Hq, Hv, Hd, Hi.
  split; [exact Hd|]. split; [exact Hv|]. split; [exact Hq|].
  split; [exact Hi|].
  split.
  { intros m Hf Hu. rewrite Hi. now apply baseImage_first_image. }
  split.
  { intros m0 ms HE Hf. rewrite Hi. unfold baseImage.
    rewrite HE. rewrite HE in Hf. now apply or_else_falsy. }
  split.
  { intros HE. rewrite Hi. unfold baseImage. now rewrite HE. }
  intros Hs. congruence.
Qed.

Lemma clear_after_select_restores_base_witness :
  product clipLoaded = Some clip /\
  displayData
    (stateAfter clearVariantSelection
       (stateAfter (handleVariantSelect clipVariant) clipLoaded))
  = Some clip /\
  selectedImage
    (stateAfter clearVariantSelection
       (stateAfter (handleVariantSelect clipVariant) clipLoaded))
  = "v.mp4".
Proof.
  split; [reflexivity|].
  destruct (clear_after_select_restores_base clipLoaded clip clipVariant
              eq_refl)
    as (Hd & _ & _ & _ & _ & Hfirst & _).
  split; [exact Hd|].
  exact (Hfirst _ _ eq_refl eq_refl).
Defined.

(** ** The selected image after a selection *)

(** What the handler selects where it keeps the preference order.  With a
    base product [P] loaded, after [select(V)] the selected image is: the
    non-empty URL of [V]'s first media entry that is flagged primary and of
    kind IMAGE; else the non-empty URL of [V]'s first media entry of kind
    IMAGE; the placeholder when [V] has media, none of them yields an image
    URL, and [P] has no media; and, when [V] has no media, the image chosen
    from base media as on load. *)
Lemma select_image_preference
  (s : ViewState) (P : ProductDetails.t) (V : Variant.t) :
  product s = Some P ->
  let img := selectedImage (stateAfter (handleVariantSelect V) s) in
  let primary :=
    JS.opt (find isPrimaryVariantImage (mediaOf V))
           VariantSpecificMedia.media_url in
  let firstImage :=
    JS.opt (find isVariantImage (mediaOf V)) VariantSpecificMedia.media_url in
  (hasMedia V = true ->
   forall u, primary = Some u -> u <> "" -> img = u) /\
  (hasMedia V = true -> truthy primary = false ->
   forall u, firstImage = Some u -> u <> "" -> img = u) /\
  (hasMedia V = true -> truthy primary = false ->
   truthy firstImage = false -> ProductDetails.media P = [] ->
   img = placeholderImage) /\
  (hasMedia V = false -> img = baseImage P) /\
  (forall m, find isImage (ProductDetails.media P) = Some m ->
             ProductMedia.url m <> "" -> baseImage P = ProductMedia.url m) /\
  (forall m0 ms, ProductDetails.media P = m0 :: ms ->
     truthy (JS.opt (find isImage (ProductDetails.media P)) ProductMedia.url)
       = false ->
     baseImage P = ProductMedia.url m0) /\
  (ProductDetails.media P = [] -> baseImage P = placeholderImage).
Proof.
  intros HP img primary firstImage.
  repeat split.
  - intros HM u Hu Hne. unfold img.
    rewrite (select_image_with_media s P V HP HM).
    fold primary firstImage. rewrite Hu.
    rewrite !or_truthy by exact Hne. now apply orElse_truthy.
  - intros HM Hp u Hu Hne. unfold img.
    rewrite (select_image_with_media s P V HP HM).
    fold primary firstImage. rewrite (or_falsy _ _ Hp), Hu.
    rewrite or_truthy by exact Hne. now apply orElse_truthy.
  - intros HM Hp Hf HE. unfold img.
    rewrite (select_image_with_media s P V HP HM).
    fold primary firstImage.
    rewrite (or_falsy _ _ Hp), (or_falsy _ _ Hf), HE. reflexivity.
  - intros HM. unfold img. now apply select_image_without_media.
  - intros m Hf Hu. now apply baseImage_first_image.
  - intros m0 ms HE Hf. unfold baseImage. rewrite HE. rewrite HE in Hf.
    destruct (JS.opt (find isImage (m0 :: ms)) ProductMedia.url) as [u|];
      cbn in *; [|reflexivity].
    destruct (u =? "")%string; [reflexivity|discriminate].
  - intros HE. unfold baseImage. rewrite HE. reflexivity.
Qed.

(** C5 (defect in the code). With a base product [P] loaded, when the
    selected variant has media but none of them yields an image URL, the
    handler selects the URL of [P]'s first media entry whatever its kind,
    even when [P] has an entry of kind IMAGE further on: this branch reads
    [product.media[0].url] without the search for an IMAGE entry that the
    branch for a variant without media (and the load and the clearing)
    makes first. *)
Theorem select_image_ignores_base_image_kind
  (s : ViewState) (P : ProductDetails.t) (V : Variant.t)
  (m0 : ProductMedia.t) (ms : list ProductMedia.t) :
  product s = Some P -> hasMedia V = true ->
  truthy (JS.opt (find isPrimaryVariantImage (mediaOf V))
                 VariantSpecificMedia.media_url) = false ->
  truthy (JS.opt (find isVariantImage (mediaOf V))
                 VariantSpecificMedia.media_url) = false ->
  ProductDetails.media P = m0 :: ms -> ProductMedia.url m0 <> "" ->
  selectedImage (stateAfter (handleVariantSelect V) s) = ProductMedia.url m0.
Proof.
  intros HP HM Hp Hf HE Hu.
  rewrite (select_image_with_media s P V HP HM).
  rewrite (or_falsy _ _ Hp), (or_falsy _ _ Hf), HE. cbn [hd_error JS.opt option_map].
  now apply orElse_truthy.
Qed.

Lemma select_image_ignores_base_image_kind_witness :
  product shirtLoaded = Some shirt /\
  hasMedia variantM = true /\
  fst (press (VariantOption 0) shirtLoaded)
    = stateAfter (handleVariantSelect variantM) shirtLoaded /\
  selectedImage (stateAfter (handleVariantSelect variantM) shirtLoaded)
    = "v.mp4" /\
  selectedImageSpec shirt variantM = "a.jpg" /\
  baseImage shirt = "a.jpg".
Proof.
  split; [reflexivity|]. split; [reflexivity|]. split; [reflexivity|].
  split; [|split; reflexivity].
  refine (select_image_ignores_base_image_kind shirtLoaded shirt variantM
            (ProductMedia.mk 1 "VIDEO" "v.mp4" 0)
            [ProductMedia.mk 2 "IMAGE" "a.jpg" 1]
            eq_refl eq_refl eq_refl eq_refl eq_refl _).
  discriminate.
Defined.

(** ** Adding to the cart *)



Lemma addToCart_success (s : ViewState) (P : ProductDetails.t) :
  product s = Some P -> 0 < quantity s ->
  withinStock (quantity s) (currentStock P (selectedVariant s)) ->
  effectsOf handleAddToCart s =
  [CartAdd (cartProduct P (selectedVariant s)) (quantity s);
   ToastSuccess (CartProduct.name (cartProduct P (selectedVariant s))
                 ++ " added to cart!")%string].
Proof.
  intros HP Hq Hw. unfold_handlers. rewrite HP.
  destruct (currentStock P (selectedVariant s)) as [n|]; cbn in *.
  - destruct (Z.ltb_spec n (quantity s)); [lia|].
    destruct (Z.eqb_spec n 0); [lia|reflexivity].
  - reflexivity.
Qed.

(** Whatever the state, the handler makes one of four series of calls. *)
Lemma addToCart_effects (s : ViewState) :
  effectsOf handleAddToCart s = [] \/
  effectsOf handleAddToCart s = [InsufficientStock] \/
  effectsOf handleAddToCart s = [OutOfStock] \/
  exists P,
    product s = Some P /\
    effectsOf handleAddToCart s =
    [CartAdd (cartProduct P (selectedVariant s)) (quantity s);
     ToastSuccess (CartProduct.name (cartProduct P (selectedVariant s))
                   ++ " added to cart!")%string].
Proof.
  unfold_handlers. destruct (product s) as [P|]; [|now left].
  destruct (stockLt _ _); [now right; left|].
  destruct (stockIsZero _); [now right; right; left|].
  right; right; right. now exists P.
Qed.





(** C6. With a base product [P] loaded and [0 < quantity <= effectiveStock],
    [addToCart()] hands the cart one descriptor, with the quantity, and
    announces it.  The descriptor's identity is ["{P.id}-{V.id}"] with
    variant [V] selected and ["{P.id}"] with none; its name is [P]'s name
    followed by [V]'s attribute values joined by [" / "] in parentheses, or
    [P]'s name alone; its price is [V]'s price, or [P]'s selling price; and
    it carries [V]'s defining attributes, or none. *)
Theorem addToCart_success_descriptor (s : ViewState) (P : ProductDetails.t) :
  product s = Some P -> 0 < quantity s ->
  withinStock (quantity s) (currentStock P (selectedVariant s)) ->
  exists c,
    effectsOf handleAddToCart s =
      [CartAdd c (quantity s);
       ToastSuccess (CartProduct.name c ++ " added to cart!")%string] /\
    (selectedVariant s = None ->
       CartProduct.id c = JS.String_ (ProductDetails.product_id P) /\
       CartProduct.name c = ProductDetails.product_name P /\
       CartProduct.price c = ProductDetails.selling_price P /\
       CartProduct.variant_attributes c = None) /\
    (forall V, selectedVariant s = Some V ->
       CartProduct.id c =
         (JS.String_ (ProductDetails.product_id P) ++ "-"
          ++ JS.String_ (Variant.variant_id V))%string /\
       CartProduct.name c =
         (ProductDetails.product_name P ++ " ("
          ++ JS.join " / "
               (map VariantDefiningAttribute.value (Variant.attributes V))
          ++ ")")%string /\
       CartProduct.price c = Variant.price V /\
       CartProduct.variant_attributes c = Some (Variant.attributes V)).
Proof.
  intros HP Hq Hw.
  exists (cartProduct P (selectedVariant s)).
  split; [now apply addToCart_success|].
  split.
  - intros ->. cbn. repeat split.
  - intros V ->. cbn. repeat split.
Qed.

Lemma addToCart_success_descriptor_witness :
  product (stateAfter (handleVariantSelect variantS) shirtLoaded)
    = Some shirt /\
  0 < quantity (stateAfter (handleVariantSelect variantS) shirtLoaded) /\
  withinStock
    (quantity (stateAfter (handleVariantSelect variantS) shirtLoaded))
    (currentStock shirt
       (selectedVariant
          (stateAfter (handleVariantSelect variantS) shirtLoaded))) /\
  exists c,
    effectsOf handleAddToCart
      (stateAfter (handleVariantSelect variantS) shirtLoaded)
    = [CartAdd c 1;
       ToastSuccess (CartProduct.name c ++ " added to cart!")%string] /\
    CartProduct.id c = "10-3" /\
    CartProduct.name c = "Shirt (S / Red)".
Proof.
  split; [reflexivity|]. split; [reflexivity|].
  split; [cbn; discriminate|].
  destruct (addToCart_success_descriptor
              (stateAfter (handleVariantSelect variantS) shirtLoaded)
              shirt eq_refl eq_refl)
    as (c & He & _ & HV).
  - cbn. discriminate.
  - exists c. split; [exact He|].
    destruct (HV variantS eq_refl) as (Hid & Hname & _).
    split; [exact Hid | exact Hname].
Defined.

(** C7. When [addToCart()] fails with OutOfStock or InsufficientStock, the
    whole view state (quantity, selected variant, display state, selected
    image and the rest) is the same before and after the call, and nothing
    is handed to the cart. *)
Theorem failed_addToCart_leaves_state (s : ViewState) :
  effectsOf handleAddToCart s = [OutOfStock] \/
  effectsOf handleAddToCart s = [InsufficientStock] ->
  stateAfter handleAddToCart s = s /\
  forall c q, ~ In (CartAdd c q) (effectsOf handleAddToCart s).
Proof.
  intros H. split; [apply addToCart_state|].
  intros c q HIn.
  destruct H as [H|H]; rewrite H in HIn;
    (destruct HIn as [HIn|[]]; discriminate).
Qed.

Lemma failed_addToCart_leaves_state_witness :
  (effectsOf handleAddToCart
     (stateAfter (handleVariantSelect variantL) shirtLoaded) = [OutOfStock] \/
   effectsOf handleAddToCart
     (stateAfter (handleVariantSelect variantL) shirtLoaded)
   = [InsufficientStock]) /\
  stateAfter handleAddToCart
    (stateAfter (handleVariantSelect variantL) shirtLoaded)
  = stateAfter (handleVariantSelect variantL) shirtLoaded.
Proof.
  split; [right; reflexivity|].
  exact (proj1 (failed_addToCart_leaves_state
                  (stateAfter (handleVariantSelect variantL) shirtLoaded)
                  (or_intror eq_refl))).
Defined.

(** C10. Every descriptor that [addToCart()] hands to the cart takes its
    cost price, discount percentage, category and brand name from the base
    product [P]: they are the values the descriptor has with no variant
    selected, whichever variant is selected. *)
Theorem cart_line_base_fields
  (s : ViewState) (P : ProductDetails.t) (c : CartProduct.t) (q : Z) :
  product s = Some P ->
  In (CartAdd c q) (effectsOf handleAddToCart s) ->
  CartProduct.cost_price c = Some (ProductDetails.cost_price P) /\
  CartProduct.discount_pct c = Some (ProductDetails.discount_pct P) /\
  CartProduct.category c =
    JS.orElse (JS.opt (ProductDetails.category P) Category.name)
              "Uncategorized" /\
  CartProduct.brand_name c = JS.opt (ProductDetails.brand P) Brand.name /\
  CartProduct.cost_price c = CartProduct.cost_price (cartProduct P None) /\
  CartProduct.discount_pct c = CartProduct.discount_pct (cartProduct P None) /\
  CartProduct.category c = CartProduct.category (cartProduct P None) /\
  CartProduct.brand_name c = CartProduct.brand_name (cartProduct P None).
Proof.
  intros HP HIn.
  assert (Hc : c = cartProduct P (selectedVariant s)).
  { destruct (addToCart_effects s) as [H|[H|[H|(P' & HP' & H)]]];
      rewrite H in HIn.
    - destruct HIn.
    - destruct HIn as [HIn|[]]; discriminate.
    - destruct HIn as [HIn|[]]; discriminate.
    - destruct HIn as [HIn|[HIn|[]]]; [|discriminate].
      injection HIn as <- _. congruence. }
  subst c. cbn. repeat split.
Qed.

Lemma cart_line_base_fields_witness :
  product (stateAfter (handleVariantSelect variantS) shirtLoaded)
    = Some shirt /\
  In (CartAdd (cartProduct shirt (Some variantS)) 1)
     (effectsOf handleAddToCart
        (stateAfter (handleVariantSelect variantS) shirtLoaded)) /\
  CartProduct.cost_price (cartProduct shirt (Some variantS)) = Some 15%Q /\
  CartProduct.category (cartProduct shirt (Some variantS)) = "Apparel".
Proof.
  split; [reflexivity|]. split; [left; reflexivity|].
  destruct (cart_line_base_fields
              (stateAfter (handleVariantSelect variantS) shirtLoaded)
              shirt (cartProduct shirt (Some variantS)) 1 eq_refl
              (or_introl eq_refl))
    as (Hcost & _ & Hcat & _).
  split; [exact Hcost | exact Hcat].
Defined.

(** ** Changing the quantity *)

(** C2, as stated, fails: with variant [variantM] selected the active stock
    is 3, and from quantity 1 the handler called with delta 5 produces 6. *)
Lemma changeQuantity_exceeds_stock_counterexample :
  currentStockForDisplay shirtWithM = Some 3 /\
  quantity shirtWithM = 1 /\
  quantity (stateAfter (handleQuantityChange 5) shirtWithM) = 6 /\
  ~ quantity (stateAfter (handleQuantityChange 5) shirtWithM) <= 3.
Proof.
  repeat split. vm_compute. intros H. apply H. reflexivity.
Qed.

Lemma click_within_stock (b : QuantityButton) (s : ViewState) (st : Z) :
  currentStockForDisplay s = Some st -> 1 <= quantity s <= st ->
  currentStockForDisplay (click b s) = Some st /\
  1 <= quantity (click b s) <= st.
Proof.
  intros HS Hq. unfold click, disabled. rewrite HS.
  destruct b.
  - destruct (Z.leb_spec (quantity s) 1); [now split|].
    split; [exact HS|]. cbn. lia.
  - rewrite Z.geb_leb.
    destruct (Z.leb_spec st (quantity s)); [now split|].
    split; [exact HS|]. cbn. lia.
Qed.

Lemma clicks_within_stock (bs : list QuantityButton) (st : Z) :
  forall s,
    currentStockForDisplay s = Some st -> 1 <= quantity s <= st ->
    1 <= quantity (clicks bs s) <= st.
Proof.
  unfold clicks.
  induction bs as [|b bs IH]; intros s HS Hq; cbn.
  - exact Hq.
  - destruct (click_within_stock b s st HS Hq) as [HS' Hq'].
    now apply IH.
Qed.

Lemma clicks_floor (bs : list QuantityButton) :
  forall s, 1 <= quantity s -> 1 <= quantity (clicks bs s).
Proof.
  unfold clicks.
  induction bs as [|b bs IH]; intros s Hq; cbn; [exact Hq|].
  apply IH. unfold click.
  destruct (disabled b s); [exact Hq|].
  destruct b; cbn; lia.
Qed.

(** C2, amended. For every quantity and every delta, [changeQuantity(d)]
    produces [max(1, q + d)], which is never below 1, also at the end of
    any series of calls; the handler applies no ceiling.  The ceiling is
    kept by the two quantity buttons, which call it with -1 and +1: the
    decrease button is disabled at [quantity <= 1] and the increase button
    at [quantity >= stock], so from a quantity within [1, stock] every
    sequence of clicks leaves the quantity within [1, stock]; whatever the
    stock, clicks never take a quantity of at least 1 below 1. *)
Theorem changeQuantity_floor_and_gated_ceiling
  (s : ViewState) (d : Z) (ds : list Z) (bs : list QuantityButton) :
  quantity (stateAfter (handleQuantityChange d) s)
    = Z.max 1 (quantity s + d) /\
  1 <= quantity (stateAfter (handleQuantityChange d) s) /\
  1 <= quantity (run (map ChangeQuantity (ds ++ [d])) s) /\
  (1 <= quantity s -> 1 <= quantity (clicks bs s)) /\
  (forall st, currentStockForDisplay s = Some st ->
     1 <= quantity s <= st -> 1 <= quantity (clicks bs s) <= st).
Proof.
  destruct (changeQuantity_fields s d) as (Hd & _).
  split; [exact Hd|]. split; [rewrite Hd; lia|].
  split.
  { rewrite map_app. unfold run. rewrite fold_left_app.
    change (1 <= quantity
                   (step (fold_left step (map ChangeQuantity ds) s)
                      (ChangeQuantity d))).
    unfold step at 1. cbn [handlerOf].
    rewrite (proj1 (changeQuantity_fields _ d)). lia. }
  split; [apply clicks_floor|].
  intros st HS Hq. now apply clicks_within_stock.
Qed.

Lemma changeQuantity_floor_and_gated_ceiling_witness :
  currentStockForDisplay shirtLoaded = None /\
  quantity (stateAfter (handleQuantityChange (-7)) shirtLoaded) = 1 /\
  currentStockForDisplay shirtWithM = Some 3 /\
  1 <= quantity
         (clicks [Increase; Increase; Increase; Increase; Decrease]
            shirtWithM) <= 3.
Proof.
  split; [reflexivity|].
  split;
    [exact (proj1 (changeQuantity_floor_and_gated_ceiling shirtLoaded (-7)
                     [] []))|].
  split; [reflexivity|].
  refine (proj2 (proj2 (proj2 (proj2
    (changeQuantity_floor_and_gated_ceiling shirtWithM 0 []
       [Increase; Increase; Increase; Increase; Decrease])))) 3 eq_refl _).
  split; discriminate.
Defined.

(** ** Invariants over sequences of events *)

Lemma run_invariant (I : ViewState -> Prop) :
  (forall s e, I s -> I (step s e)) ->
  forall es s, I s -> I (run es s).
Proof.
  intros Hstep. unfold run.
  induction es as [|e es IH]; intros s Hs; cbn; auto.
Qed.

Lemma newDisplayData_merged (P : ProductDetails.t) (V : Variant.t) :
  MergedShape P V (newDisplayData P V).
Proof. constructor; reflexivity. Qed.

Lemma coherent_loaded (P : ProductDetails.t) (vs : list Variant.t) :
  Coherent P (fetchProductData P vs).
Proof. split; [reflexivity|]. left. split; reflexivity. Qed.

Lemma coherent_transfer (P : ProductDetails.t) (s s' : ViewState) :
  product s' = product s -> selectedVariant s' = selectedVariant s ->
  displayData s' = displayData s ->
  Coherent P s -> Coherent P s'.
Proof.
  intros Hp Hv Hd [HP [[HV HD]|(V & d & HV & HD & HM)]].
  - split; [congruence|]. left. split; congruence.
  - split; [congruence|]. right. exists V, d.
    split; [congruence|]. split; [congruence|exact HM].
Qed.

Lemma coherent_step (P : ProductDetails.t) (s : ViewState) (e : Event) :
  Coherent P s -> Coherent P (step s e).
Proof.
  intros HC. pose proof HC as [HP _].
  destruct e as [V| |d| |u]; unfold step, handlerOf.
  - destruct (select_fields s P V HP) as (_ & Hv & Hd & Hp & _).
    split; [congruence|]. right. exists V, (newDisplayData P V).
    split; [exact Hv|]. split; [exact Hd|apply newDisplayData_merged].
  - destruct (clear_fields s P HP) as (_ & Hv & Hd & _ & Hp & _).
    split; [congruence|]. left. now split.
  - destruct (changeQuantity_fields s d) as (_ & Hv & Hd & _ & Hp).
    now apply (coherent_transfer P s).
  - rewrite addToCart_state. exact HC.
  - destruct (thumbnail_fields s u) as (_ & Hv & Hd & _ & Hp).
    now apply (coherent_transfer P s).
Qed.

(** C8. After every sequence of operations on a loaded base product [P]
    (selections and clearings, and also quantity changes, add-to-cart calls
    and thumbnail clicks), the display state has exactly one of two shapes:
    no variant is selected and it is [P]; or a variant [V] is selected and
    it is [P] with price, stock, sku, media and attributes all taken from
    [V] together and every other field from [P]. *)
Theorem display_state_coherent
  (P : ProductDetails.t) (vs : list Variant.t) (es : list Event) :
  (ShowsBase P (run es (fetchProductData P vs)) \/
   ShowsMerged P (run es (fetchProductData P vs))) /\
  ~ (ShowsBase P (run es (fetchProductData P vs)) /\
     ShowsMerged P (run es (fetchProductData P vs))).
Proof.
  assert (HC : Coherent P (run es (fetchProductData P vs))).
  { apply run_invariant; [apply coherent_step | apply coherent_loaded]. }
  split; [exact (proj2 HC)|].
  intros [[HN _] (V & d & HV & _)]. congruence.
Qed.

(** C9. The requested quantity is always at least 1: it starts at 1, a
    selection or a clearing on a loaded product sets it to 1, a quantity
    change yields [max(1, q + d)], add-to-cart leaves it as it is, and so
    from any state with quantity at least 1 every sequence of operations
    ends with quantity at least 1. *)
Theorem quantity_at_least_one (s : ViewState) (es : list Event) :
  1 <= quantity s ->
  quantity initialState = 1 /\
  (forall P vs, quantity (fetchProductData P vs) = 1) /\
  (forall V, product s <> None -> quantity (step s (Select V)) = 1) /\
  (product s <> None -> quantity (step s Clear) = 1) /\
  (forall d, quantity (step s (ChangeQuantity d)) = Z.max 1 (quantity s + d)
             /\ 1 <= quantity (step s (ChangeQuantity d))) /\
  quantity (step s AddToCart) = quantity s /\
  (forall e, 1 <= quantity (step s e)) /\
  1 <= quantity (run es s).
Proof.
  assert (Hstep : forall s0 e, 1 <= quantity s0 -> 1 <= quantity (step s0 e)).
  { intros s0 e H0. destruct e as [V| |d| |u]; unfold step, handlerOf.
    - destruct (product s0) as [P|] eqn:HP.
      + destruct (select_fields s0 P V HP) as (-> & _). lia.
      + unfold stateAfter. rewrite (select_not_loaded s0 V HP). exact H0.
    - destruct (product s0) as [P|] eqn:HP.
      + destruct (clear_fields s0 P HP) as (-> & _). lia.
      + unfold stateAfter. rewrite (clear_not_loaded s0 HP). exact H0.
    - destruct (changeQuantity_fields s0 d) as (-> & _). lia.
    - rewrite addToCart_state. exact H0.
    - destruct (thumbnail_fields s0 u) as (-> & _). exact H0. }
  intros Hq.
  split; [reflexivity|]. split; [reflexivity|].
  split.
  { intros V HP. destruct (product s) as [P|] eqn:E; [|contradiction].
    exact (proj1 (select_fields s P V E)). }
  split.
  { intros HP. destruct (product s) as [P|] eqn:E; [|contradiction].
    exact (proj1 (clear_fields s P E)). }
  split.
  { intros d. split; [exact (proj1 (changeQuantity_fields s d))|].
    apply Hstep. exact Hq. }
  split.
  { unfold step, handlerOf. now rewrite addToCart_state. }
  split.
  { intros e. apply Hstep. exact Hq. }
  apply (run_invariant (fun s0 => 1 <= quantity s0)); assumption.
Qed.

Lemma quantity_at_least_one_witness :
  1 <= quantity shirtLoaded /\
  1 <= quantity
         (run [Select variantS; ChangeQuantity 4; ChangeQuantity (-9);
               AddToCart; Clear; ChangeQuantity (-1)] shirtLoaded).
Proof.
  split; [discriminate|].
  refine (proj2 (proj2 (proj2 (proj2 (proj2 (proj2 (proj2
    (quantity_at_least_one shirtLoaded
       [Select variantS; ChangeQuantity 4; ChangeQuantity (-9);
        AddToCart; Clear; ChangeQuantity (-1)] _)))))))).
  discriminate.
Defined.

(** ** Loading a product *)

Ltac unfold_fetch :=
  unfold stateAfter, effectsOf, fire, fetchProductDataEffect,
    fetchProductDataTry, throw, completed, bind, ret, emit, setQuantity,
    setQuantityWith, setSelectedImage, setSelectedVariant, setDisplayData,
    setLoading, setError, setProduct, setVariants.

(** X1. A run of [fetchProductData] in which both requests succeed leaves,
    whatever the view showed before, the fetched product [P] installed as
    product and as display state, no variant selected, quantity 1, the image
    chosen from [P]'s media, the fetched variants, no error and no loading
    flag; only the active tab is kept.  From the initial mount state this is
    the loaded state [fetchProductData P vs]; the main screen is rendered
    exactly when [P]'s identifier is not 0. *)
Theorem fetch_success_resets_view
  (s : ViewState) (productId : option string) (P : ProductDetails.t)
  (vs : list Variant.t) (status vstatus : Z) :
  truthy productId = true -> ok status = true -> ok vstatus = true ->
  let s' :=
    stateAfter
      (fetchProductDataEffect productId (Response status (inl P))
         (Response vstatus (inl vs))) s in
  s' = {| quantity := 1; selectedImage := baseImage P;
          activeTab := activeTab s; product := Some P; variants := vs;
          selectedVariant := None; displayData := Some P;
          loading := false; error := None |} /\
  (activeTab s = product_details -> s' = fetchProductData P vs) /\
  (screen s' = MainScreen <-> ProductDetails.product_id P <> 0).
Proof.
  intros Hid Hok Hvok s'.
  assert (Hs : s' = {| quantity := 1; selectedImage := baseImage P;
                       activeTab := activeTab s; product := Some P;
                       variants := vs; selectedVariant := None;
                       displayData := Some P; loading := false;
                       error := None |}).
  { unfold s'. unfold_fetch. rewrite Hid, Hok, Hvok. reflexivity. }
  split; [exact Hs|]. split.
  - intros Htab. rewrite Hs, Htab. reflexivity.
  - rewrite Hs. unfold screen. cbn.
    destruct (Z.eqb_spec (ProductDetails.product_id P) 0) as [E|E].
    + split; [discriminate|contradiction].
    + split; [intros _; exact E|reflexivity].
Qed.

Lemma fetch_success_resets_view_witness :
  truthy (Some "10") = true /\ ok 200 = true /\
  stateAfter
    (fetchProductDataEffect (Some "10") (Response 200 (inl shirt))
       (Response 200 (inl [variantM; variantL; variantS])))
    (stateAfter (handleVariantSelect variantL) shirtLoaded)
  = shirtLoaded.
Proof.
  split; [reflexivity|]. split; [reflexivity|].
  exact (proj1 (proj2 (fetch_success_resets_view
                         (stateAfter (handleVariantSelect variantL)
                            shirtLoaded)
                         (Some "10") shirt [variantM; variantL; variantS]
                         200 200 eq_refl eq_refl eq_refl)) eq_refl).
Defined.

(** X2. When the product request succeeds and the variants request answers
    with a status outside 200-299, the page is not blocked: the state is the
    one of a successful load with an empty variant list, whatever the body
    of the answer, and no error is recorded. *)
Theorem fetch_variants_http_failure_is_not_fatal
  (s : ViewState) (productId : option string) (P : ProductDetails.t)
  (status vstatus : Z) (vjson : list Variant.t + Thrown) :
  truthy productId = true -> ok status = true -> ok vstatus = false ->
  let s' :=
    stateAfter
      (fetchProductDataEffect productId (Response status (inl P))
         (Response vstatus vjson)) s in
  s' = stateAfter
         (fetchProductDataEffect productId (Response status (inl P))
            (Response 200 (inl []))) s /\
  product s' = Some P /\ variants s' = [] /\ error s' = None /\
  loading s' = false.
Proof.
  intros Hid Hok Hvok s'. unfold s'. unfold_fetch.
  rewrite Hid, Hok, Hvok. cbn. repeat split.
Qed.

Lemma fetch_variants_http_failure_is_not_fatal_witness :
  truthy (Some "10") = true /\ ok 200 = true /\ ok 500 = false /\
  variants
    (stateAfter
       (fetchProductDataEffect (Some "10") (Response 200 (inl shirt))
          (Response 500 (inr NotAnError))) shirtLoaded) = [] /\
  error
    (stateAfter
       (fetchProductDataEffect (Some "10") (Response 200 (inl shirt))
          (Response 500 (inr NotAnError))) shirtLoaded) = None.
Proof.
  split; [reflexivity|]. split; [reflexivity|]. split; [reflexivity|].
  destruct (fetch_variants_http_failure_is_not_fatal shirtLoaded (Some "10")
              shirt 200 500 (inr NotAnError) eq_refl eq_refl eq_refl)
    as (_ & _ & Hv & He & _).
  split; [exact Hv | exact He].
Defined.

(** X3. When the product request succeeds but the variants request rejects,
    or its body fails to parse, the thrown error is recorded although the
    product was installed: the variant list of the previous product is kept,
    and with a non-empty message the not-found screen is rendered with that
    message in place of the product. *)
Theorem fetch_variants_rejection_is_fatal
  (s : ViewState) (productId : option string) (P : ProductDetails.t)
  (status vstatus : Z) (err : Thrown)
  (variantsResponse : Fetched (list Variant.t)) :
  truthy productId = true -> ok status = true ->
  variantsResponse = Rejected err \/
  (ok vstatus = true /\ variantsResponse = Response vstatus (inr err)) ->
  let s' :=
    stateAfter
      (fetchProductDataEffect productId (Response status (inl P))
         variantsResponse) s in
  error s' = Some (errorMessage err) /\
  product s' = Some P /\ displayData s' = Some P /\
  variants s' = variants s /\ loading s' = false /\
  (errorMessage err <> "" -> screen s' = NotFoundScreen (errorMessage err)).
Proof.
  intros Hid Hok Hv s'.
  assert (Hs : s' = {| quantity := 1; selectedImage := baseImage P;
                       activeTab := activeTab s; product := Some P;
                       variants := variants s; selectedVariant := None;
                       displayData := Some P; loading := false;
                       error := Some (errorMessage err) |}).
  { unfold s'. unfold_fetch. rewrite Hid, Hok.
    destruct Hv as [->|[Hvok ->]]; [reflexivity|].
    rewrite Hvok. reflexivity. }
  rewrite Hs. cbn. repeat split.
  intros Hne. unfold screen. cbn.
  destruct (String.eqb_spec (errorMessage err) ""); [contradiction|].
  reflexivity.
Qed.

Lemma fetch_variants_rejection_is_fatal_witness :
  truthy (Some "10") = true /\ ok 200 = true /\
  screen
    (stateAfter
       (fetchProductDataEffect (Some "10") (Response 200 (inl shirt))
          (Rejected (ErrorWith "Failed to fetch"))) initialState)
  = NotFoundScreen "Failed to fetch".
Proof.
  split; [reflexivity|]. split; [reflexivity|].
  refine (proj2 (proj2 (proj2 (proj2 (proj2
    (fetch_variants_rejection_is_fatal initialState (Some "10") shirt 200 0
       (ErrorWith "Failed to fetch") (Rejected (ErrorWith "Failed to fetch"))
       eq_refl eq_refl (or_introl eq_refl)))))) _).
  discriminate.
Defined.

(** X4. When the product request answers with a status outside 200-299 the
    run records the message "Product not found." for 404 and "Failed to
    fetch product details: <status>" otherwise, and the not-found screen is
    rendered with it.  The selection and the quantity are reset, but the
    product, display state, image and variants of the previous product stay
    in the state. *)
Theorem fetch_product_http_failure
  (s : ViewState) (productId : option string) (status : Z)
  (json : ProductDetails.t + Thrown)
  (variantsResponse : Fetched (list Variant.t)) :
  truthy productId = true -> ok status = false ->
  let s' :=
    stateAfter
      (fetchProductDataEffect productId (Response status json)
         variantsResponse) s in
  let message :=
    if (status =? 404)%Z then "Product not found."
    else ("Failed to fetch product details: " ++ JS.String_ status)%string in
  error s' = Some message /\
  screen s' = NotFoundScreen message /\
  selectedVariant s' = None /\ quantity s' = 1 /\ loading s' = false /\
  product s' = product s /\ displayData s' = displayData s /\
  selectedImage s' = selectedImage s /\ variants s' = variants s.
Proof.
  intros Hid Hok s' message.
  assert (Hs : s' = {| quantity := 1; selectedImage := selectedImage s;
                       activeTab := activeTab s; product := product s;
                       variants := variants s; selectedVariant := None;
                       displayData := displayData s; loading := false;
                       error := Some message |}).
  { unfold s', message. unfold_fetch. rewrite Hid, Hok.
    destruct (status =? 404)%Z; reflexivity. }
  rewrite Hs. cbn. repeat split.
  unfold screen, message. cbn.
  destruct (status =? 404)%Z; reflexivity.
Qed.

Lemma fetch_product_http_failure_witness :
  truthy (Some "11") = true /\ ok 404 = false /\
  error
    (stateAfter
       (fetchProductDataEffect (Some "11") (Response 404 (inr NotAnError))
          (Rejected NotAnError))
       (stateAfter (handleVariantSelect variantS) shirtLoaded))
  = Some "Product not found." /\
  displayData
    (stateAfter
       (fetchProductDataEffect (Some "11") (Response 404 (inr NotAnError))
          (Rejected NotAnError))
       (stateAfter (handleVariantSelect variantS) shirtLoaded))
  = Some (newDisplayData shirt variantS).
Proof.
  split; [reflexivity|]. split; [reflexivity|].
  destruct (fetch_product_http_failure
              (stateAfter (handleVariantSelect variantS) shirtLoaded)
              (Some "11") 404 (inr NotAnError) (Rejected NotAnError)
              eq_refl eq_refl)
    as (He & _ & _ & _ & _ & _ & Hd & _).
  split; [exact He | exact Hd].
Defined.

(** ** Pressing the controls of the main screen *)

Lemma orElse_cases (a : option string) (d : string) :
  JS.orElse a d = d \/ a = Some (JS.orElse a d).
Proof.
  destruct a as [u|]; cbn; [|now left].
  destruct (u =? "")%string; [now left|now right].
Qed.

Lemma or_cases (a b : option string) : a ||| b = a \/ a ||| b = b.
Proof.
  destruct a as [u|]; cbn; [|now right].
  destruct (u =? "")%string; [now right|now left].
Qed.

Lemma opt_find_in {A : Type} (p : A -> bool) (f : A -> string)
  (xs : list A) (u : string) :
  JS.opt (find p xs) f = Some u -> In u (map f xs).
Proof.
  unfold JS.opt. destruct (find p xs) as [x|] eqn:E; cbn; [|discriminate].
  intros H. injection H as <-. apply in_map.
  exact (proj1 (find_some _ _ E)).
Qed.

Lemma opt_hd_in {A : Type} (f : A -> string) (xs : list A) (u : string) :
  JS.opt (hd_error xs) f = Some u -> In u (map f xs).
Proof.
  destruct xs as [|x xs]; cbn; [discriminate|].
  intros H. injection H as <-. now left.
Qed.

Lemma baseImage_known (P : ProductDetails.t) :
  baseImage P = placeholderImage \/
  In (baseImage P) (map ProductMedia.url (ProductDetails.media P)).
Proof.
  unfold baseImage. destruct (ProductDetails.media P) as [|m0 ms] eqn:E.
  - now left.
  - right.
    destruct (orElse_cases
                (JS.opt (find isImage (m0 :: ms)) ProductMedia.url)
                (ProductMedia.url m0)) as [H|H].
    + rewrite H. now left.
    + exact (opt_find_in _ _ _ _ H).
Qed.

Lemma variant_image_known (P : ProductDetails.t) (V : Variant.t) :
  let img :=
    JS.orElse
      (JS.opt (find isPrimaryVariantImage (mediaOf V))
              VariantSpecificMedia.media_url
       ||| JS.opt (find isVariantImage (mediaOf V))
                  VariantSpecificMedia.media_url
       ||| JS.opt (hd_error (ProductDetails.media P)) ProductMedia.url)
      placeholderImage in
  img = placeholderImage \/
  In img (map ProductMedia.url (ProductDetails.media P)) \/
  In img (map VariantSpecificMedia.media_url (mediaOf V)).
Proof.
  intros img. unfold img.
  match goal with |- JS.orElse ?a ?d = _ \/ _ =>
    destruct (orElse_cases a d) as [H|H]; [now left|right];
    set (u := JS.orElse a d) in *
  end.
  match type of H with ?a ||| ?c = _ =>
    destruct (or_cases a c) as [H1|H1]; rewrite H1 in H
  end.
  - right.
    match type of H with ?a ||| ?b = _ =>
      destruct (or_cases a b) as [H2|H2]; rewrite H2 in H
    end; exact (opt_find_in _ _ _ _ H).
  - left. exact (opt_hd_in _ _ _ H).
Qed.

Lemma click_frame (b : QuantityButton) (s : ViewState) :
  product (click b s) = product s /\
  variants (click b s) = variants s /\
  selectedVariant (click b s) = selectedVariant s /\
  displayData (click b s) = displayData s /\
  selectedImage (click b s) = selectedImage s.
Proof.
  unfold click. destruct (disabled b s); [repeat split|].
  destruct b; unfold_handlers; cbn; repeat split.
Qed.

Lemma click_quantity (b : QuantityButton) (s : ViewState) :
  1 <= quantity s ->
  1 <= quantity (click b s) /\
  forall st, currentStockForDisplay s = Some st ->
             st = 0 \/ quantity s <= st ->
             st = 0 \/ quantity (click b s) <= st.
Proof.
  intros Hq. unfold click, disabled.
  destruct b.
  - destruct (Z.leb_spec (quantity s) 1).
    + split; [exact Hq|auto].
    + cbn. split; [lia|]. intros st _ [H0|H0]; [now left|right; lia].
  - destruct (currentStockForDisplay s) as [st0|] eqn:E.
    + rewrite Z.geb_leb. destruct (Z.leb_spec st0 (quantity s)).
      * split; [exact Hq|auto].
      * cbn. split; [lia|]. intros st Hst _. injection Hst as <-.
        right. lia.
    + cbn. split; [lia|]. intros st Hst. discriminate.
Qed.

Lemma currentStockForDisplay_frame (s s' : ViewState) :
  product s' = product s -> selectedVariant s' = selectedVariant s ->
  currentStockForDisplay s' = currentStockForDisplay s.
Proof.
  intros Hp Hv. unfold currentStockForDisplay. now rewrite Hp, Hv.
Qed.

Lemma press_invariant_loaded (P : ProductDetails.t) (vs : list Variant.t) :
  StocksNonNegative P vs -> PressInvariant P vs (fetchProductData P vs).
Proof.
  intros [HP _]. unfold PressInvariant. cbn.
  split; [reflexivity|]. split; [reflexivity|]. split; [lia|].
  split; [reflexivity|]. split.
  { intros st Hst. unfold currentStockForDisplay in Hst. cbn in Hst.
    specialize (HP st Hst). lia. }
  split; [discriminate|].
  unfold ImageKnown. cbn.
  destruct (baseImage_known P) as [H|H]; [now left|now right; left].
Qed.

Lemma press_invariant (P : ProductDetails.t) (vs : list Variant.t)
  (c : Control) (s : ViewState) :
  StocksNonNegative P vs -> PressInvariant P vs s ->
  PressInvariant P vs (fst (press c s)) /\
  Forall SuccessfulCall (snd (press c s)).
Proof.
  intros [HPst Hvst] Inv.
  pose proof Inv as (HP & Hvs & Hq & Hd & Hst & Hsel & Himg).
  unfold press. destruct (screen s); try (split; [exact Inv|constructor]).
  destruct c as [i| |b| |i].
  - (* a variant option *)
    destruct (nth_error (variants s) i) as [V|] eqn:En;
      [|split; [exact Inv|constructor]].
    unfold isOutOfStock.
    destruct (Z.eqb_spec (Variant.stock V) 0) as [E0|E0];
      [split; [exact Inv|constructor]|].
    assert (HVpos : 0 < Variant.stock V).
    { apply nth_error_In in En. rewrite Hvs in En.
      rewrite Forall_forall in Hvst. specialize (Hvst V En). lia. }
    split; [|unfold_handlers; rewrite HP;
             destruct (hasMedia V); constructor].
    change (fst (fire (handleVariantSelect V) s))
      with (stateAfter (handleVariantSelect V) s).
    destruct (select_fields s P V HP)
      as (Hq' & Hv' & Hd' & Hp' & Hvs' & _).
    unfold PressInvariant.
    rewrite Hq', Hv', Hd', Hp', Hvs'.
    split; [exact HP|]. split; [exact Hvs|]. split; [lia|].
    split; [reflexivity|]. split.
    { intros st Hc. unfold currentStockForDisplay in Hc.
      rewrite Hv' in Hc. injection Hc as <-. right. lia. }
    split.
    { intros V0 HV0. injection HV0 as <-. exact HVpos. }
    unfold ImageKnown. rewrite Hv'.
    destruct (hasMedia V) eqn:HM.
    + rewrite (select_image_with_media s P V HP HM).
      destruct (variant_image_known P V) as [H|[H|H]];
        [now left|now right; left|].
      right; right. exists V. split; [reflexivity|exact H].
    + rewrite (select_image_without_media s P V HP HM).
      destruct (baseImage_known P) as [H|H]; [now left|now right; left].
  - (* the link back to the base product *)
    destruct (variants s) as [|v0 vs0] eqn:Ev;
      [split; [exact Inv|constructor]|].
    destruct (selectedVariant s) as [V0|] eqn:Es;
      [|split; [exact Inv|constructor]].
    split; [|unfold_handlers; rewrite HP; constructor].
    change (fst (fire clearVariantSelection s))
      with (stateAfter clearVariantSelection s).
    destruct (clear_fields s P HP)
      as (Hq' & Hv' & Hd' & Hi' & Hp' & Hvs' & _).
    unfold PressInvariant.
    rewrite Hq', Hv', Hd', Hp', Hvs'.
    split; [exact HP|]. split; [congruence|]. split; [lia|].
    split; [reflexivity|]. split.
    { intros st Hc. unfold currentStockForDisplay in Hc.
      rewrite Hv', Hp', HP in Hc. specialize (HPst st Hc). lia. }
    split; [discriminate|].
    unfold ImageKnown. rewrite Hi'.
    destruct (baseImage_known P) as [H|H]; [now left|now right; left].
  - (* a quantity button *)
    cbn. split; [|constructor].
    destruct (click_frame b s) as (Hp' & Hvs' & Hv' & Hd' & Hi').
    destruct (click_quantity b s Hq) as (Hq' & Hst').
    unfold PressInvariant, ImageKnown.
    rewrite Hp', Hvs', Hv', Hd', Hi'.
    rewrite (currentStockForDisplay_frame s (click b s) Hp' Hv').
    repeat split; try assumption.
    intros st Hc. exact (Hst' st Hc (Hst st Hc)).
  - (* the Add To Cart button *)
    unfold addToCartDisabled.
    destruct (currentStockForDisplay s) as [st|] eqn:Ec.
    + destruct (Z.eqb_spec st 0) as [E0|E0];
        [split; [exact Inv|constructor]|].
      change (fst (fire handleAddToCart s))
        with (stateAfter handleAddToCart s).
      change (snd (fire handleAddToCart s))
        with (effectsOf handleAddToCart s).
      rewrite addToCart_state. split; [exact Inv|].
      assert (Hw : withinStock (quantity s)
                     (currentStock P (selectedVariant s))).
      { destruct (Hst st eq_refl) as [H0|H0]; [contradiction|].
        unfold currentStockForDisplay in Ec. unfold currentStock.
        destruct (selectedVariant s) as [V|].
        - injection Ec as <-. exact H0.
        - rewrite HP in Ec. rewrite Ec. exact H0. }
      rewrite (addToCart_success s P HP) by (lia || exact Hw).
      constructor; [|constructor; [|constructor]].
      * left. eexists _, _. split; [reflexivity|]. split; [lia|exact Hw].
      * right. eexists. reflexivity.
    + change (fst (fire handleAddToCart s))
        with (stateAfter handleAddToCart s).
      change (snd (fire handleAddToCart s))
        with (effectsOf handleAddToCart s).
      rewrite addToCart_state. split; [exact Inv|].
      assert (Hw : withinStock (quantity s)
                     (currentStock P (selectedVariant s))).
      { unfold currentStockForDisplay in Ec. unfold currentStock.
        destruct (selectedVariant s) as [V|]; [discriminate|].
        rewrite HP in Ec. rewrite Ec. exact I. }
      rewrite (addToCart_success s P HP) by (lia || exact Hw).
      constructor; [|constructor; [|constructor]].
      * left. eexists _, _. split; [reflexivity|]. split; [lia|exact Hw].
      * right. eexists. reflexivity.
  - (* a thumbnail *)
    destruct (nth_error (thumbnails s) i) as [m|] eqn:En;
      [|split; [exact Inv|constructor]].
    split; [|unfold_handlers; constructor].
    change (fst (fire (handleThumbnailClick (ProductMedia.url m)) s))
      with (stateAfter (handleThumbnailClick (ProductMedia.url m)) s).
    destruct (thumbnail_fields s (ProductMedia.url m))
      as (Hq' & Hv' & Hd' & Hi' & Hp').
    assert (Hvs' : variants
                     (stateAfter
                        (handleThumbnailClick (ProductMedia.url m)) s)
                   = variants s) by reflexivity.
    unfold PressInvariant, ImageKnown.
    rewrite Hq', Hv', Hd', Hi', Hp', Hvs'.
    rewrite (currentStockForDisplay_frame s _ Hp' Hv').
    repeat split; try assumption.
    (* the URL pressed belongs to the displayed media *)
    apply nth_error_In in En. unfold thumbnails in En. rewrite Hd in En.
    match type of En with
    | In _ (if ?t then _ else _) => destruct t; [|contradiction]
    end.
    apply filter_In in En. destruct En as [En _].
    destruct (selectedVariant s) as [V|] eqn:Es.
    + cbn in En. destruct (hasMedia V).
      * right; right. exists V. split; [reflexivity|].
        apply in_map_iff in En. destruct En as (m' & <- & Hm').
        cbn. now apply in_map.
      * right; left. now apply in_map.
    + right; left. now apply in_map.
Qed.

Lemma presses_invariant (P : ProductDetails.t) (vs : list Variant.t)
  (cs : list Control) :
  StocksNonNegative P vs ->
  forall s, PressInvariant P vs s ->
    PressInvariant P vs (fst (presses cs s)) /\
    Forall SuccessfulCall (snd (presses cs s)).
Proof.
  intros HS. induction cs as [|c cs IH]; intros s Inv; cbn.
  - split; [exact Inv|constructor].
  - destruct (press_invariant P vs c s HS Inv) as [Inv1 Hout1].
    destruct (press c s) as [s1 out1]. cbn in Inv1, Hout1.
    destruct (IH s1 Inv1) as [Inv2 Hout2].
    destruct (presses cs s1) as [s2 out2]. cbn in *.
    split; [exact Inv2|]. apply Forall_app. now split.
Qed.

(** X5. When every declared stock is a count (an integer, so not the
    [NaN] of an unreadable stock, and not negative), no series of presses
    on the rendered controls of a loaded product makes [handleAddToCart]
    report a failure: every call made is a success toast or a line handed
    to the cart with a quantity of at least 1 and within the line's stock.
    Between presses the quantity is at least 1 and, when the active stock
    is known and not 0, at most that stock. *)
Theorem presses_never_fail
  (P : ProductDetails.t) (vs : list Variant.t) (cs : list Control) :
  StocksNonNegative P vs ->
  Forall SuccessfulCall (snd (presses cs (fetchProductData P vs))) /\
  1 <= quantity (fst (presses cs (fetchProductData P vs))) /\
  (forall st,
      currentStockForDisplay (fst (presses cs (fetchProductData P vs)))
        = Some st ->
      st = 0 \/ quantity (fst (presses cs (fetchProductData P vs))) <= st).
Proof.
  intros HS.
  destruct (presses_invariant P vs cs HS _ (press_invariant_loaded P vs HS))
    as [(_ & _ & Hq & _ & Hst & _) Hout].
  split; [exact Hout|]. split; [exact Hq|exact Hst].
Qed.

Lemma presses_never_fail_witness :
  StocksNonNegative shirt [variantM; variantL; variantS] /\
  snd (presses
         [VariantOption 1; AddToCartButton; VariantOption 0;
          QuantityControl Increase; QuantityControl Increase;
          QuantityControl Increase; QuantityControl Increase;
          AddToCartButton]
         shirtLoaded)
  = [CartAdd (cartProduct shirt None) 1;
     ToastSuccess "Shirt added to cart!";
     CartAdd (cartProduct shirt (Some variantM)) 3;
     ToastSuccess "Shirt (M) added to cart!"] /\
  Forall SuccessfulCall
    (snd (presses
            [VariantOption 1; AddToCartButton; VariantOption 0;
             QuantityControl Increase; QuantityControl Increase;
             QuantityControl Increase; QuantityControl Increase;
             AddToCartButton]
            shirtLoaded)).
Proof.
  assert (HS : StocksNonNegative shirt [variantM; variantL; variantS]).
  { split; [discriminate|].
    repeat constructor; discriminate. }
  split; [exact HS|]. split; [reflexivity|].
  exact (proj1 (presses_never_fail shirt [variantM; variantL; variantS]
                  [VariantOption 1; AddToCartButton; VariantOption 0;
                   QuantityControl Increase; QuantityControl Increase;
                   QuantityControl Increase; QuantityControl Increase;
                   AddToCartButton] HS)).
Defined.

Lemma image_invariant_loaded (P : ProductDetails.t) (vs : list Variant.t) :
  ImageInvariant P (fetchProductData P vs).
Proof.
  split; [reflexivity|]. split; [reflexivity|].
  unfold ImageKnown. cbn.
  destruct (baseImage_known P) as [H|H]; [now left|now right; left].
Qed.

Lemma press_image_invariant (P : ProductDetails.t) (c : Control)
  (s : ViewState) :
  ImageInvariant P s -> ImageInvariant P (fst (press c s)).
Proof.
  intros Inv. pose proof Inv as (HP & Hd & Himg).
  unfold press. destruct (screen s); try exact Inv.
  destruct c as [i| |b| |i].
  - destruct (nth_error (variants s) i) as [V|]; [|exact Inv].
    destruct (isOutOfStock V); [exact Inv|].
    change (fst (fire (handleVariantSelect V) s))
      with (stateAfter (handleVariantSelect V) s).
    destruct (select_fields s P V HP) as (_ & Hv' & Hd' & Hp' & _).
    unfold ImageInvariant, ImageKnown. rewrite Hv', Hd', Hp'.
    split; [exact HP|]. split; [reflexivity|].
    destruct (hasMedia V) eqn:HM.
    + rewrite (select_image_with_media s P V HP HM).
      destruct (variant_image_known P V) as [H|[H|H]];
        [now left|now right; left|].
      right; right. exists V. split; [reflexivity|exact H].
    + rewrite (select_image_without_media s P V HP HM).
      destruct (baseImage_known P) as [H|H]; [now left|now right; left].
  - destruct (variants s) as [|v0 vs0]; [exact Inv|].
    destruct (selectedVariant s) as [V0|] eqn:Es; [|exact Inv].
    change (fst (fire clearVariantSelection s))
      with (stateAfter clearVariantSelection s).
    destruct (clear_fields s P HP) as (_ & Hv' & Hd' & Hi' & Hp' & _).
    unfold ImageInvariant, ImageKnown. rewrite Hv', Hd', Hi', Hp'.
    split; [exact HP|]. split; [reflexivity|].
    destruct (baseImage_known P) as [H|H]; [now left|now right; left].
  - cbn [fst].
    destruct (click_frame b s) as (Hp' & _ & Hv' & Hd' & Hi').
    unfold ImageInvariant, ImageKnown. rewrite Hp', Hv', Hd', Hi'.
    exact Inv.
  - destruct (addToCartDisabled s); [exact Inv|].
    change (fst (fire handleAddToCart s))
      with (stateAfter handleAddToCart s).
    now rewrite addToCart_state.
  - destruct (nth_error (thumbnails s) i) as [m|] eqn:En; [|exact Inv].
    change (fst (fire (handleThumbnailClick (ProductMedia.url m)) s))
      with (stateAfter (handleThumbnailClick (ProductMedia.url m)) s).
    destruct (thumbnail_fields s (ProductMedia.url m))
      as (_ & Hv' & Hd' & Hi' & Hp').
    unfold ImageInvariant, ImageKnown. rewrite Hv', Hd', Hi', Hp'.
    split; [exact HP|]. split; [exact Hd|].
    apply nth_error_In in En. unfold thumbnails in En. rewrite Hd in En.
    match type of En with
    | In _ (if ?t then _ else _) => destruct t; [|contradiction]
    end.
    apply filter_In in En. destruct En as [En _].
    destruct (selectedVariant s) as [V|] eqn:Es.
    + cbn in En. destruct (hasMedia V).
      * right; right. exists V. split; [reflexivity|].
        apply in_map_iff in En. destruct En as (m' & <- & Hm').
        cbn. now apply in_map.
      * right; left. now apply in_map.
    + right; left. now apply in_map.
Qed.

Lemma presses_image_invariant (P : ProductDetails.t) (cs : list Control) :
  forall s, ImageInvariant P s -> ImageInvariant P (fst (presses cs s)).
Proof.
  induction cs as [|c cs IH]; intros s Inv; cbn; [exact Inv|].
  pose proof (press_image_invariant P c s Inv) as Inv1.
  destruct (press c s) as [s1 out1]. cbn in Inv1.
  specialize (IH s1 Inv1).
  destruct (presses cs s1) as [s2 out2]. exact IH.
Qed.

(** X6. After every series of presses on the rendered controls of a loaded
    product, the selected image is the placeholder, the URL of one of the
    base product's media entries, or the URL of one of the selected
    variant's media entries. *)
Theorem pressed_image_is_known
  (P : ProductDetails.t) (vs : list Variant.t) (cs : list Control) :
  ImageKnown P (fst (presses cs (fetchProductData P vs))).
Proof.
  exact (proj2 (proj2 (presses_image_invariant P cs _
                         (image_invariant_loaded P vs)))).
Qed.

Lemma pressed_image_is_known_witness :
  selectedImage
    (fst (presses [VariantOption 2; ThumbnailButton 0] shirtLoaded))
  = "s1.jpg" /\
  ImageKnown shirt
    (fst (presses [VariantOption 2; ThumbnailButton 0] shirtLoaded)).
Proof.
  split; [reflexivity|].
  exact (pressed_image_is_known shirt [variantM; variantL; variantS]
           [VariantOption 2; ThumbnailButton 0]).
Defined.

(** ** The thumbnail strip and the specification table *)

Lemma toUpperChar_idempotent (c : ascii) :
  JS.toUpperChar (JS.toUpperChar c) = JS.toUpperChar c.
Proof.
  destruct c as [[] [] [] [] [] [] [] []]; reflexivity.
Qed.

Lemma toUpperCase_idempotent (u : string) :
  JS.toUpperCase (JS.toUpperCase u) = JS.toUpperCase u.
Proof.
  unfold JS.toUpperCase.
  induction u as [|c u IH]; cbn; [reflexivity|].
  now rewrite toUpperChar_idempotent, IH.
Qed.

Lemma isThumbnail_toProductMedia (m : VariantSpecificMedia.t) :
  isThumbnail (toProductMedia m) = isVariantImage m.
Proof.
  unfold isThumbnail, isVariantImage. cbn.
  now rewrite toUpperCase_idempotent.
Qed.

Lemma filter_thumbnails_of_variant (ms : list VariantSpecificMedia.t) :
  filter isThumbnail (map toProductMedia ms)
  = map toProductMedia (filter isVariantImage ms).
Proof.
  induction ms as [|m ms IH]; [reflexivity|].
  cbn [filter map]. rewrite isThumbnail_toProductMedia.
  destruct (isVariantImage m); cbn [map]; now rewrite IH.
Qed.

(** X7. With a base product loaded, after selecting a variant that has two
    media entries or more, the thumbnail strip shows exactly the variant's
    entries of kind IMAGE (compared without regard to case), converted to
    the base media shape, in their order; after selecting a variant with a
    single media entry no thumbnail is shown, even when that entry is an
    image. *)
Theorem thumbnails_after_select
  (s : ViewState) (P : ProductDetails.t) (V : Variant.t) :
  product s = Some P ->
  (forall m1 m2 ms, Variant.media V = Some (m1 :: m2 :: ms) ->
     thumbnails (stateAfter (handleVariantSelect V) s)
     = map toProductMedia (filter isVariantImage (m1 :: m2 :: ms))) /\
  (forall m1, Variant.media V = Some [m1] ->
     thumbnails (stateAfter (handleVariantSelect V) s) = []).
Proof.
  intros HP.
  destruct (select_fields s P V HP) as (_ & _ & Hd & _).
  split.
  - intros m1 m2 ms HM. unfold thumbnails. rewrite Hd.
    unfold newDisplayData, hasMedia, mediaOf. cbn [ProductDetails.media].
    rewrite HM.
    replace (1 <? Z.of_nat
                    (List.length (map toProductMedia (m1 :: m2 :: ms))))%Z
      with true.
    + apply filter_thumbnails_of_variant.
    + symmetry. apply Z.ltb_lt. cbn [List.length map]. lia.
  - intros m1 HM. unfold thumbnails. rewrite Hd.
    unfold newDisplayData, hasMedia, mediaOf. cbn [ProductDetails.media].
    rewrite HM. reflexivity.
Qed.

Lemma thumbnails_after_select_witness :
  product shirtLoaded = Some shirt /\
  map ProductMedia.url
    (thumbnails (stateAfter (handleVariantSelect variantS) shirtLoaded))
  = ["s1.jpg"; "s2.jpg"] /\
  thumbnails (stateAfter (handleVariantSelect variantS) shirtLoaded)
  = map toProductMedia
      (filter isVariantImage
         [VariantSpecificMedia.mk 8 "s1.jpg" "image" false 0;
          VariantSpecificMedia.mk 9 "s2.jpg" "Image" true 1]).
Proof.
  split; [reflexivity|]. split; [reflexivity|].
  exact (proj1 (thumbnails_after_select shirtLoaded shirt variantS eq_refl)
           _ _ _ eq_refl).
Defined.

Lemma map_mapi_from {A B C : Type} (f : A -> Z -> B) (g : B -> C)
  (h : A -> C) (xs : list A) :
  (forall x i, g (f x i) = h x) ->
  forall i, map g (JS.mapi_from f i xs) = map h xs.
Proof.
  intros Hfg. induction xs as [|x xs IH]; intros i; cbn.
  - reflexivity.
  - rewrite Hfg, IH. reflexivity.
Qed.

Lemma run_frame (es : list Event) (s : ViewState) :
  product (run es s) = product s /\ variants (run es s) = variants s /\
  activeTab (run es s) = activeTab s /\ loading (run es s) = loading s /\
  error (run es s) = error s.
Proof.
  apply (run_invariant
           (fun s' => product s' = product s /\ variants s' = variants s /\
                      activeTab s' = activeTab s /\
                      loading s' = loading s /\ error s' = error s));
    [|repeat split].
  intros s0 e (Hp & Hv & Ht & Hl & He).
  rewrite <- Hp, <- Hv, <- Ht, <- Hl, <- He.
  destruct e as [V| |d| |u]; unfold step, handlerOf.
  - destruct (product s0) as [P0|] eqn:E.
    + destruct (select_fields s0 P0 V E) as (_ & _ & _ & H1 & H2 & H3 & H4 & H5).
      repeat split; congruence.
    + unfold stateAfter. rewrite (select_not_loaded s0 V E). cbn.
      repeat split; congruence.
  - destruct (product s0) as [P0|] eqn:E.
    + destruct (clear_fields s0 P0 E) as (_ & _ & _ & _ & H1 & H2 & H3 & H4 & H5).
      repeat split; congruence.
    + unfold stateAfter. rewrite (clear_not_loaded s0 E). cbn.
      repeat split; congruence.
  - unfold_handlers. cbn. repeat split.
  - rewrite addToCart_state. repeat split.
  - unfold_handlers. cbn. repeat split.
Qed.

(** X8. After every sequence of operations on a loaded base product, the
    rows of the specification table marked as selected are exactly the
    defining attributes of the selected variant, in their order, with the
    attribute name followed by " (Selected)" and the attribute value; there
    is none when no variant is selected.  The rows of the base product's
    general attributes are the same whatever is selected. *)
Theorem specification_rows
  (P : ProductDetails.t) (vs : list Variant.t) (es : list Event) :
  renderVariantDefiningAttributesInTable (run es (fetchProductData P vs))
  = match selectedVariant (run es (fetchProductData P vs)) with
    | Some V =>
        map (fun a =>
               ((VariantDefiningAttribute.name a ++ " (Selected)")%string,
                VariantDefiningAttribute.value a))
            (Variant.attributes V)
    | None => []
    end /\
  renderProductSpecificationAttributes (run es (fetchProductData P vs))
  = renderProductSpecificationAttributes (fetchProductData P vs).
Proof.
  assert (HC : Coherent P (run es (fetchProductData P vs))).
  { apply run_invariant; [apply coherent_step | apply coherent_loaded]. }
  destruct HC as [HP [[HV HD]|(V & d & HV & HD & HM)]].
  - split.
    + unfold renderVariantDefiningAttributesInTable. now rewrite HV.
    + unfold renderProductSpecificationAttributes. now rewrite HP.
  - split.
    + unfold renderVariantDefiningAttributesInTable. rewrite HV, HD.
      rewrite (merged_attributes _ _ _ HM). unfold JS.mapi.
      apply map_mapi_from. reflexivity.
    + unfold renderProductSpecificationAttributes. now rewrite HP.
Qed.

(** ** Composition of selections *)

Lemma filter_none {A : Type} (p : A -> bool) (xs : list A) :
  (forall x, In x xs -> p x = false) -> filter p xs = [].
Proof.
  induction xs as [|x xs IH]; intros H; cbn; [reflexivity|].
  rewrite (H x (or_introl eq_refl)). apply IH.
  intros y Hy. apply H. now right.
Qed.

Lemma filter_unique_id (V : Variant.t) (vs : list Variant.t) :
  In V vs -> NoDup (map Variant.variant_id vs) ->
  filter (fun v => Variant.variant_id V =? Variant.variant_id v)%Z vs = [V].
Proof.
  induction vs as [|v vs IH]; intros HIn HND; [destruct HIn|].
  cbn in HND. inversion HND as [|x l Hnotin HND']; subst.
  cbn. destruct HIn as [->|HIn].
  - rewrite Z.eqb_refl. f_equal.
    apply filter_none. intros w Hw.
    destruct (Z.eqb_spec (Variant.variant_id V) (Variant.variant_id w))
      as [E|E]; [|reflexivity].
    exfalso. apply Hnotin. rewrite E. now apply in_map.
  - destruct (Z.eqb_spec (Variant.variant_id V) (Variant.variant_id v))
      as [E|E].
    + exfalso. apply Hnotin. rewrite <- E. now apply in_map.
    + now apply IH.
Qed.

(** X9. With a base product loaded and variant identifiers pairwise
    distinct, after selecting a listed variant [V] the option buttons marked
    as selected are [V]'s and no other. *)
Theorem selected_option_is_unique
  (s : ViewState) (P : ProductDetails.t) (V : Variant.t) :
  product s = Some P -> In V (variants s) ->
  NoDup (map Variant.variant_id (variants s)) ->
  filter (isSelected (stateAfter (handleVariantSelect V) s))
         (variants (stateAfter (handleVariantSelect V) s))
  = [V].
Proof.
  intros HP HIn HND.
  destruct (select_fields s P V HP) as (_ & Hv & _ & _ & Hvs & _).
  rewrite Hvs. unfold isSelected. rewrite Hv.
  now apply filter_unique_id.
Qed.

Lemma selected_option_is_unique_witness :
  product shirtLoaded = Some shirt /\
  In variantS (variants shirtLoaded) /\
  NoDup (map Variant.variant_id (variants shirtLoaded)) /\
  filter (isSelected (stateAfter (handleVariantSelect variantS) shirtLoaded))
         (variants (stateAfter (handleVariantSelect variantS) shirtLoaded))
  = [variantS].
Proof.
  assert (HIn : In variantS (variants shirtLoaded)).
  { right; right; left; reflexivity. }
  assert (HND : NoDup (map Variant.variant_id (variants shirtLoaded))).
  { cbn. repeat constructor; cbn; intuition discriminate. }
  split; [reflexivity|]. split; [exact HIn|]. split; [exact HND|].
  exact (selected_option_is_unique shirtLoaded shirt variantS eq_refl
           HIn HND).
Defined.

(** X10. With a base product loaded, the state after selecting a variant,
    and the state after clearing the selection, do not depend on what was
    done before: earlier selections, quantity changes, add-to-cart calls and
    thumbnail clicks leave no trace. *)
Theorem selection_forgets_history
  (s : ViewState) (P : ProductDetails.t) (V : Variant.t) (es : list Event) :
  product s = Some P ->
  stateAfter (handleVariantSelect V) (run es s)
  = stateAfter (handleVariantSelect V) s /\
  stateAfter clearVariantSelection (run es s)
  = stateAfter clearVariantSelection s.
Proof.
  intros HP.
  destruct (run_frame es s) as (Hp & Hv & Ht & Hl & He).
  destruct (run es s) as [q1 i1 t1 p1 vs1 sv1 d1 l1 e1].
  destruct s as [q i t p vs0 sv d l e].
  cbn in *. subst.
  split; unfold_handlers; cbn.
  - destruct (hasMedia V); reflexivity.
  - reflexivity.
Qed.

Lemma selection_forgets_history_witness :
  product shirtLoaded = Some shirt /\
  stateAfter (handleVariantSelect variantS)
    (run [Select variantM; ChangeQuantity 2; Thumbnail "x.png"; AddToCart]
       shirtLoaded)
  = stateAfter (handleVariantSelect variantS) shirtLoaded.
Proof.
  split; [reflexivity|].
  exact (proj1 (selection_forgets_history shirtLoaded shirt variantS
                  [Select variantM; ChangeQuantity 2; Thumbnail "x.png";
                   AddToCart] eq_refl)).
Defined.

(** ** Option pictures and cart line texts *)

(** X19. With a base product loaded, when a variant's option button shows
    a picture, selecting that variant makes that picture the selected
    image. *)
Theorem option_image_is_selected_image
  (s : ViewState) (P : ProductDetails.t) (V : Variant.t) (u : string) :
  product s = Some P -> optionImage V = Some u -> u <> "" ->
  selectedImage (stateAfter (handleVariantSelect V) s) = u.
Proof.
  intros HP Ho Hu. unfold optionImage in Ho.
  destruct (Variant.media V) as [ms|] eqn:EM; [|discriminate].
  assert (HM : hasMedia V = true).
  { unfold hasMedia. rewrite EM. destruct ms; [discriminate|reflexivity]. }
  rewrite (select_image_with_media s P V HP HM).
  unfold mediaOf. rewrite EM. rewrite Ho.
  rewrite or_truthy by exact Hu. now apply orElse_truthy.
Qed.

Lemma option_image_is_selected_image_witness :
  product shirtLoaded = Some shirt /\
  optionImage variantS = Some "s2.jpg" /\
  selectedImage (stateAfter (handleVariantSelect variantS) shirtLoaded)
  = "s2.jpg".
Proof.
  split; [reflexivity|]. split; [reflexivity|].
  refine (option_image_is_selected_image shirtLoaded shirt variantS "s2.jpg"
            eq_refl eq_refl _).
  discriminate.
Defined.

Lemma orElse_nonempty (a : option string) (d : string) :
  d <> "" -> JS.orElse a d <> "".
Proof.
  intros Hd. destruct a as [u|]; cbn; [|exact Hd].
  destruct (String.eqb_spec u ""); [exact Hd|assumption].
Qed.

(** X20. The descriptor built for the cart never has an empty image or an
    empty category, whatever the product and the selection, and with no
    variant selected it never has an empty sku: the placeholder image,
    "Uncategorized" and "BASE-<id>" stand in for what is missing. *)
Theorem cart_line_texts_not_empty
  (P : ProductDetails.t) (selected : option Variant.t) :
  CartProduct.image (cartProduct P selected) <> "" /\
  CartProduct.category (cartProduct P selected) <> "" /\
  CartProduct.sku (cartProduct P None) <> "" /\
  CartProduct.currency (cartProduct P selected) = "INR".
Proof.
  split; [|split; [|split]].
  - cbn. apply orElse_nonempty. discriminate.
  - cbn. apply orElse_nonempty. discriminate.
  - cbn. apply orElse_nonempty. discriminate.
  - reflexivity.
Qed.

(** ** Paging of the homepage product sections *)

Module HomepageFacts.
Import Homepage.

Lemma ceilDiv_bounds (a b : Z) :
  0 < b -> ceilDiv a b * b - b < a <= ceilDiv a b * b.
Proof.
  intros Hb. unfold ceilDiv.
  pose proof (Z.div_mod (- a) b ltac:(lia)) as Hdm.
  pose proof (Z.mod_pos_bound (- a) b Hb) as Hm.
  nia.
Qed.

Lemma ceilDiv_nonneg (a b : Z) : 0 < b -> 0 <= a -> 0 <= ceilDiv a b.
Proof.
  intros Hb Ha. pose proof (ceilDiv_bounds a b Hb). nia.
Qed.

Lemma slice_window {A : Type} (xs : list A) (a n : Z) :
  0 <= a -> 0 <= n ->
  slice xs a (a + n) = firstn (Z.to_nat n) (skipn (Z.to_nat a) xs).
Proof.
  intros Ha Hn. unfold slice.
  destruct (Z.ltb_spec a 0); [lia|].
  destruct (Z.ltb_spec (a + n) 0); [lia|].
  set (len := Z.of_nat (List.length xs)).
  destruct (Z.le_gt_cases a len) as [Hal|Hal].
  - rewrite (Z.min_l a len) by lia.
    destruct (Z.le_gt_cases (a + n) len) as [Hbl|Hbl].
    + rewrite (Z.min_l (a + n) len) by lia. f_equal. f_equal. lia.
    + rewrite (Z.min_r (a + n) len) by lia.
      rewrite !firstn_all2; [reflexivity| |];
        rewrite length_skipn; unfold len in *; lia.
  - rewrite (Z.min_r a len), (Z.min_r (a + n) len) by lia.
    rewrite !skipn_all2 by (unfold len in *; lia).
    now rewrite !firstn_nil.
Qed.

Lemma slice_length {A : Type} (xs : list A) (a n : Z) :
  0 <= n -> (List.length (slice xs a (a + n)) <= Z.to_nat n)%nat.
Proof.
  intros Hn. unfold slice.
  etransitivity; [apply firstn_le_length|].
  set (len := Z.of_nat (List.length xs)).
  assert (0 <= len) by (unfold len; lia).
  destruct (Z.ltb_spec a 0); destruct (Z.ltb_spec (a + n) 0); lia.
Qed.

Lemma slice_incl {A : Type} (xs : list A) (a b : Z) :
  incl (slice xs a b) xs.
Proof.
  unfold slice. intros x Hx.
  match type of Hx with
  | In _ (firstn ?m (skipn ?k _)) =>
      rewrite <- (firstn_skipn k xs);
      rewrite <- (firstn_skipn m (skipn k xs))
  end.
  apply in_or_app. right. apply in_or_app. now left.
Qed.

Lemma chunks_cover {A : Type} (xs : list A) (n : nat) :
  forall (k s : nat),
    (List.length (skipn (s * n) xs) <= k * n)%nat ->
    flat_map (fun p => firstn n (skipn ((p - 1) * n) xs)) (seq (S s) k)
    = skipn (s * n) xs.
Proof.
  induction k as [|k IH]; intros s Hlen.
  - cbn. destruct (skipn (s * n) xs); [reflexivity|cbn in Hlen; lia].
  - cbn [seq flat_map].
    rewrite IH.
    + replace (S s - 1)%nat with s by lia.
      replace (S s * n)%nat with (n + s * n)%nat by lia.
      rewrite <- skipn_skipn. apply firstn_skipn.
    + rewrite length_skipn in *. lia.
Qed.

Lemma flat_map_ext_in {A B : Type} (f g : A -> list B) (l : list A) :
  (forall a, In a l -> f a = g a) -> flat_map f l = flat_map g l.
Proof.
  induction l as [|a l IH]; intros H; cbn; [reflexivity|].
  rewrite (H a (or_introl eq_refl)), IH; [reflexivity|].
  intros b Hb. apply H. now right.
Qed.

Section Paging.

Context {Product : Type}.
Variable categoryData : CategoryWithProducts.t Product.

Let id := Category.category_id (CategoryWithProducts.category categoryData).

Lemma active_products_same_tab (states : CategoryStates)
  (st : CategoryState.t) (page : Z) :
  states id = Some st ->
  getActiveCategoryProducts
    (assign id (CategoryState.mk (CategoryState.activeCategory st) page)
       states) categoryData
  = getActiveCategoryProducts states categoryData.
Proof.
  intros Hst. unfold getActiveCategoryProducts, assign. unfold id in *.
  rewrite Z.eqb_refl, Hst. reflexivity.
Qed.

Lemma visible_on_page (states : CategoryStates) (itemsPerView : Z)
  (tab : string) (page : Z) :
  1 <= page -> 0 <= itemsPerView ->
  getVisibleProducts (assign id (CategoryState.mk tab page) states)
    itemsPerView categoryData
  = firstn (Z.to_nat itemsPerView)
      (skipn (Z.to_nat ((page - 1) * itemsPerView))
         (getActiveCategoryProducts
            (assign id (CategoryState.mk tab page) states) categoryData)).
Proof.
  intros Hp Hi.
  set (states' := assign id (CategoryState.mk tab page) states).
  assert (Hl : states' id = Some (CategoryState.mk tab page)).
  { unfold states', assign. now rewrite Z.eqb_refl. }
  unfold getVisibleProducts. fold id. rewrite Hl.
  cbn [option_map orOne CategoryState.currentPage].
  destruct (Z.eqb_spec page 0); [lia|].
  apply slice_window; nia.
Qed.

(** X11. For a section whose state is known and a positive number of items
    per view, the pages 1 to [getTotalPages], read one after the other with
    the tab unchanged, give every active product of the section exactly
    once and in order. *)
Theorem pages_cover_all_products
  (states : CategoryStates) (itemsPerView : Z) (st : CategoryState.t) :
  states id = Some st -> 0 < itemsPerView ->
  flat_map
    (fun page =>
       getVisibleProducts
         (assign id
            (CategoryState.mk (CategoryState.activeCategory st)
               (Z.of_nat page)) states)
         itemsPerView categoryData)
    (seq 1 (Z.to_nat (getTotalPages states itemsPerView categoryData)))
  = getActiveCategoryProducts states categoryData.
Proof.
  intros Hst Hi.
  set (all := getActiveCategoryProducts states categoryData).
  set (n := Z.to_nat itemsPerView).
  rewrite (flat_map_ext_in _
             (fun page => firstn n (skipn ((page - 1) * n) all))).
  - rewrite (chunks_cover all n _ 0); [reflexivity|].
    cbn [Nat.mul skipn]. unfold getTotalPages. fold all.
    pose proof (ceilDiv_bounds (Z.of_nat (List.length all)) itemsPerView Hi).
    pose proof (ceilDiv_nonneg (Z.of_nat (List.length all)) itemsPerView Hi
                  ltac:(lia)).
    unfold n. nia.
  - intros page Hpage. apply in_seq in Hpage.
    rewrite visible_on_page by lia.
    rewrite (active_products_same_tab states st _ Hst). fold all.
    f_equal. f_equal. unfold n. nia.
Qed.

(** X12. Whatever the stored page number, a page shows at most
    [itemsPerView] products, and only active products of the section. *)
Theorem visible_products_bounded
  (states : CategoryStates) (itemsPerView : Z) :
  0 <= itemsPerView ->
  (List.length (getVisibleProducts states itemsPerView categoryData)
   <= Z.to_nat itemsPerView)%nat /\
  incl (getVisibleProducts states itemsPerView categoryData)
       (getActiveCategoryProducts states categoryData).
Proof.
  intros Hi. unfold getVisibleProducts. split.
  - apply slice_length. exact Hi.
  - apply slice_incl.
Qed.

(** X13. Choosing a tab stores that tab with page 1 for the section and
    leaves the state of every other section as it was.  For a subcategory
    tab whose name is not empty and not "All", the section then shows the
    first [itemsPerView] products of the first subcategory of that name;
    for the tab "All" it shows the first [itemsPerView] products of all
    subcategories taken in order. *)
Theorem category_change_shows_first_page
  (states : CategoryStates) (itemsPerView : Z) (tab : string) :
  0 <= itemsPerView ->
  let states' := handleCategoryChange id tab states in
  states' id = Some (CategoryState.mk tab 1) /\
  (forall k, k <> id -> states' k = states k) /\
  (forall sub,
      tab <> "" -> tab <> "All" ->
      find (fun sub =>
              (Category.name (Subcategory.category sub) =? tab)%string)
           (CategoryWithProducts.subcategories categoryData) = Some sub ->
      getVisibleProducts states' itemsPerView categoryData
      = firstn (Z.to_nat itemsPerView) (Subcategory.products sub)) /\
  (tab = "All" ->
   getVisibleProducts states' itemsPerView categoryData
   = firstn (Z.to_nat itemsPerView)
       (flat_map Subcategory.products
          (CategoryWithProducts.subcategories categoryData))).
Proof.
  intros Hi states'. unfold states', handleCategoryChange.
  split; [unfold assign; now rewrite Z.eqb_refl|].
  split.
  { intros k Hk. unfold assign.
    destruct (Z.eqb_spec k id); [contradiction|reflexivity]. }
  split.
  - intros sub Hne HnAll Hfind.
    rewrite visible_on_page by lia.
    replace ((1 - 1) * itemsPerView) with 0 by lia.
    change (Z.to_nat 0) with 0%nat. cbn [skipn].
    f_equal. unfold getActiveCategoryProducts, assign. unfold id.
    rewrite Z.eqb_refl. cbn [JS.opt option_map CategoryState.activeCategory].
    rewrite (orElse_truthy _ _ Hne).
    destruct (String.eqb_spec tab "All"); [contradiction|].
    now rewrite Hfind.
  - intros ->.
    rewrite visible_on_page by lia.
    replace ((1 - 1) * itemsPerView) with 0 by lia.
    change (Z.to_nat 0) with 0%nat. cbn [skipn].
    f_equal. unfold getActiveCategoryProducts, assign. unfold id.
    rewrite Z.eqb_refl. reflexivity.
Qed.

End Paging.

Lemma pages_cover_all_products_witness :
  handleCategoryChange 7 "All" noStates 7 = Some (CategoryState.mk "All" 1) /\
  0 < 2 /\
  getTotalPages (handleCategoryChange 7 "All" noStates) 2 gadgets = 3 /\
  flat_map
    (fun page =>
       getVisibleProducts
         (assign 7 (CategoryState.mk "All" (Z.of_nat page))
            (handleCategoryChange 7 "All" noStates))
         2 gadgets)
    (seq 1 (Z.to_nat
              (getTotalPages (handleCategoryChange 7 "All" noStates) 2
                 gadgets)))
  = ["p1"; "p2"; "p3"; "w1"; "w2"].
Proof.
  split; [reflexivity|]. split; [reflexivity|]. split; [reflexivity|].
  exact (pages_cover_all_products gadgets
           (handleCategoryChange 7 "All" noStates) 2
           (CategoryState.mk "All" 1) eq_refl eq_refl).
Defined.

Lemma visible_products_bounded_witness :
  0 <= 2 /\
  getVisibleProducts
    (assign 7 (CategoryState.mk "All" 3) noStates) 2 gadgets = ["w2"] /\
  (List.length
     (getVisibleProducts
        (assign 7 (CategoryState.mk "All" 3) noStates) 2 gadgets)
   <= Z.to_nat 2)%nat.
Proof.
  split; [discriminate|]. split; [reflexivity|].
  refine (proj1 (visible_products_bounded gadgets
                   (assign 7 (CategoryState.mk "All" 3) noStates) 2 _)).
  discriminate.
Defined.

Lemma category_change_shows_first_page_witness :
  0 <= 2 /\
  getVisibleProducts (handleCategoryChange 7 "Phones" noStates) 2 gadgets
  = ["p1"; "p2"] /\
  handleCategoryChange 7 "Phones" noStates 7
  = Some (CategoryState.mk "Phones" 1).
Proof.
  split; [discriminate|].
  destruct (category_change_shows_first_page gadgets noStates 2 "Phones")
    as (Hs & _ & Hsub & _).
  - discriminate.
  - split; [|exact Hs].
    refine (Hsub (Subcategory.mk (Category.mk 71 "Phones" "phones" None)
                    ["p1"; "p2"; "p3"]) _ _ eq_refl); discriminate.
Defined.

(** X14. With the state of a section known, its category listed, and the
    stored page within 1 to the number of pages, the previous-page and
    next-page updaters keep the tab, move the page by one without leaving
    that range, and do not change the number of pages. *)
Theorem page_navigation_stays_in_range {Product : Type}
  (data : list (CategoryWithProducts.t Product)) (states : CategoryStates)
  (itemsPerView : Z) (categoryId : Z) (st : CategoryState.t)
  (categoryData : CategoryWithProducts.t Product) :
  states categoryId = Some st ->
  find (fun c =>
          (Category.category_id (CategoryWithProducts.category c)
           =? categoryId)%Z) data = Some categoryData ->
  1 <= CategoryState.currentPage st
    <= getTotalPages states itemsPerView categoryData ->
  (exists states' st',
      handlePrevPage categoryId states = Some states' /\
      states' categoryId = Some st' /\
      CategoryState.activeCategory st' = CategoryState.activeCategory st /\
      CategoryState.currentPage st'
        = Z.max (CategoryState.currentPage st - 1) 1 /\
      1 <= CategoryState.currentPage st'
        <= getTotalPages states' itemsPerView categoryData) /\
  (exists states' st',
      handleNextPage data states itemsPerView categoryId states
        = Some states' /\
      states' categoryId = Some st' /\
      CategoryState.activeCategory st' = CategoryState.activeCategory st /\
      CategoryState.currentPage st'
        = Z.min (CategoryState.currentPage st + 1)
            (getTotalPages states itemsPerView categoryData) /\
      1 <= CategoryState.currentPage st'
        <= getTotalPages states' itemsPerView categoryData).
Proof.
  intros Hst Hfind Hrange.
  assert (Hid : Category.category_id
                  (CategoryWithProducts.category categoryData) = categoryId).
  { apply find_some in Hfind. destruct Hfind as [_ H].
    now apply Z.eqb_eq in H. }
  assert (Hpages : forall page,
             getTotalPages
               (assign categoryId
                  (CategoryState.mk (CategoryState.activeCategory st) page)
                  states) itemsPerView categoryData
             = getTotalPages states itemsPerView categoryData).
  { intros page. unfold getTotalPages. subst categoryId.
    now rewrite active_products_same_tab. }
  split.
  - unfold handlePrevPage. rewrite Hst.
    eexists _, _. split; [reflexivity|].
    split; [unfold assign; rewrite Z.eqb_refl; reflexivity|].
    cbn. split; [reflexivity|]. split; [reflexivity|].
    rewrite Hpages. lia.
  - unfold handleNextPage. rewrite Hst, Hfind.
    eexists _, _. split; [reflexivity|].
    split; [unfold assign; rewrite Z.eqb_refl; reflexivity|].
    cbn. split; [reflexivity|]. split; [reflexivity|].
    rewrite Hpages. lia.
Qed.

Lemma page_navigation_stays_in_range_witness :
  handleCategoryChange 7 "All" noStates 7 = Some (CategoryState.mk "All" 1) /\
  1 <= 1 <= getTotalPages (handleCategoryChange 7 "All" noStates) 2 gadgets /\
  exists states',
    handleNextPage [emptySection; gadgets]
      (handleCategoryChange 7 "All" noStates) 2 7
      (handleCategoryChange 7 "All" noStates) = Some states' /\
    option_map CategoryState.currentPage (states' 7) = Some 2.
Proof.
  split; [reflexivity|]. split; [split; discriminate|].
  destruct (page_navigation_stays_in_range [emptySection; gadgets]
              (handleCategoryChange 7 "All" noStates) 2 7
              (CategoryState.mk "All" 1) gadgets eq_refl eq_refl)
    as (_ & states' & st' & Hn & Hs & _ & Hp & _).
  - split; discriminate.
  - exists states'. split; [exact Hn|]. rewrite Hs. cbn. now rewrite Hp.
Defined.

(** X15. In a section without active products the number of pages is 0,
    and the next-page updater stores page 0 from page 1.  A stored page 0
    is read as page 1 when the visible products are computed. *)
Theorem next_page_without_products {Product : Type}
  (data : list (CategoryWithProducts.t Product)) (states : CategoryStates)
  (itemsPerView : Z) (categoryId : Z) (st : CategoryState.t)
  (categoryData : CategoryWithProducts.t Product) :
  states categoryId = Some st ->
  find (fun c =>
          (Category.category_id (CategoryWithProducts.category c)
           =? categoryId)%Z) data = Some categoryData ->
  getActiveCategoryProducts states categoryData = [] ->
  CategoryState.currentPage st = 1 ->
  getTotalPages states itemsPerView categoryData = 0 /\
  (exists states',
      handleNextPage data states itemsPerView categoryId states
        = Some states' /\
      states' categoryId
        = Some (CategoryState.mk (CategoryState.activeCategory st) 0)) /\
  (forall (other : CategoryWithProducts.t Product) (ipv : Z),
      Category.category_id (CategoryWithProducts.category other)
        = categoryId ->
      getVisibleProducts
        (assign categoryId
           (CategoryState.mk (CategoryState.activeCategory st) 0) states)
        ipv other
      = getVisibleProducts
          (assign categoryId
             (CategoryState.mk (CategoryState.activeCategory st) 1) states)
          ipv other).
Proof.
  intros Hst Hfind Hempty Hpage.
  assert (Htotal : getTotalPages states itemsPerView categoryData = 0).
  { unfold getTotalPages. rewrite Hempty. reflexivity. }
  split; [exact Htotal|]. split.
  - unfold handleNextPage. rewrite Hst, Hfind, Htotal, Hpage.
    eexists. split; [reflexivity|].
    unfold assign. rewrite Z.eqb_refl. reflexivity.
  - intros other ipv Hid. unfold getVisibleProducts, getActiveCategoryProducts.
    rewrite Hid. unfold assign. rewrite Z.eqb_refl. reflexivity.
Qed.

Lemma next_page_without_products_witness :
  handleCategoryChange 8 "All" noStates 8 = Some (CategoryState.mk "All" 1) /\
  getActiveCategoryProducts (handleCategoryChange 8 "All" noStates)
    emptySection = [] /\
  exists states',
    handleNextPage [emptySection; gadgets]
      (handleCategoryChange 8 "All" noStates) 4 8
      (handleCategoryChange 8 "All" noStates) = Some states' /\
    states' 8 = Some (CategoryState.mk "All" 0).
Proof.
  split; [reflexivity|]. split; [reflexivity|].
  exact (proj1 (proj2
    (next_page_without_products [emptySection; gadgets]
       (handleCategoryChange 8 "All" noStates) 4 8
       (CategoryState.mk "All" 1) emptySection
       eq_refl eq_refl eq_refl eq_refl))).
Defined.

(** X16. The previous-page updater throws exactly when the section has no
    stored state; the next-page updater throws exactly when the section
    has no stored state or no listed category has its identifier. *)
Theorem page_updaters_throw {Product : Type}
  (data : list (CategoryWithProducts.t Product)) (states prev : CategoryStates)
  (itemsPerView : Z) (categoryId : Z) :
  (handlePrevPage categoryId prev = None <-> prev categoryId = None) /\
  (handleNextPage data states itemsPerView categoryId prev = None <->
   prev categoryId = None \/
   forall c, In c data ->
     Category.category_id (CategoryWithProducts.category c) <> categoryId).
Proof.
  split.
  - unfold handlePrevPage. destruct (prev categoryId); split;
      try discriminate; reflexivity.
  - unfold handleNextPage. destruct (prev categoryId) as [st|].
    + destruct (find _ data) as [c|] eqn:E; split.
      * discriminate.
      * intros [H|H]; [discriminate|].
        apply find_some in E. destruct E as [HIn Heq].
        apply Z.eqb_eq in Heq. now apply H in HIn.
      * intros _. right. intros c HIn Heq.
        apply (find_none _ _ E) in HIn.
        apply Z.eqb_neq in HIn. contradiction.
      * reflexivity.
    + split; [now left|reflexivity].
Qed.

Lemma initialStates_lookup {Product : Type}
  (data : list (CategoryWithProducts.t Product)) :
  forall (acc : CategoryStates) (k : Z),
    fold_left
      (fun states categoryData =>
         assign
           (Category.category_id (CategoryWithProducts.category categoryData))
           (CategoryState.mk "All" 1) states)
      data acc k
    = if existsb
           (fun c =>
              (k =? Category.category_id (CategoryWithProducts.category c))%Z)
           data
      then Some (CategoryState.mk "All" 1)
      else acc k.
Proof.
  induction data as [|c data IH]; intros acc k; cbn; [reflexivity|].
  rewrite IH. unfold assign.
  destruct (existsb _ data); [now rewrite orb_true_r|].
  rewrite orb_false_r. reflexivity.
Qed.

(** X17. After the homepage products are fetched, every listed section
    starts on tab "All" and page 1 and its active products are the products
    of its subcategories, taken in order (the section's own product list is
    not among them); an identifier that no listed section carries has no
    state. *)
Theorem initial_states_show_all {Product : Type}
  (data : list (CategoryWithProducts.t Product)) :
  (forall categoryData, In categoryData data ->
     initialStates data
       (Category.category_id (CategoryWithProducts.category categoryData))
     = Some (CategoryState.mk "All" 1) /\
     getActiveCategoryProducts (initialStates data) categoryData
     = flat_map Subcategory.products
         (CategoryWithProducts.subcategories categoryData)) /\
  (forall k,
     (forall c, In c data ->
        Category.category_id (CategoryWithProducts.category c) <> k) ->
     initialStates data k = None).
Proof.
  split.
  - intros categoryData HIn.
    assert (H : initialStates data
                  (Category.category_id
                     (CategoryWithProducts.category categoryData))
                = Some (CategoryState.mk "All" 1)).
    { unfold initialStates. rewrite initialStates_lookup.
      replace (existsb _ data) with true; [reflexivity|].
      symmetry. apply existsb_exists. exists categoryData.
      split; [exact HIn|apply Z.eqb_refl]. }
    split; [exact H|].
    unfold getActiveCategoryProducts. rewrite H. reflexivity.
  - intros k Hk. unfold initialStates. rewrite initialStates_lookup.
    replace (existsb _ data) with false; [reflexivity|].
    symmetry. apply not_true_is_false. intros HE.
    apply existsb_exists in HE. destruct HE as (c & HIn & Heq).
    apply Z.eqb_eq in Heq. symmetry in Heq. now apply Hk in HIn.
Qed.

(** X18. For every window width the number of items per view is between 1
    and 4, and a wider window never shows fewer items. *)
Theorem items_per_view_bounds (width width' : Z) :
  width <= width' ->
  1 <= updateItemsPerView width <= 4 /\
  updateItemsPerView width <= updateItemsPerView width'.
Proof.
  intros Hw. unfold updateItemsPerView.
  destruct (Z.ltb_spec width 640); destruct (Z.ltb_spec width' 640);
    destruct (Z.ltb_spec width 768); destruct (Z.ltb_spec width' 768);
    destruct (Z.ltb_spec width 1024); destruct (Z.ltb_spec width' 1024);
    lia.
Qed.

Lemma items_per_view_bounds_witness :
  700 <= 1024 /\
  updateItemsPerView 700 = 2 /\ updateItemsPerView 1024 = 4 /\
  updateItemsPerView 700 <= updateItemsPerView 1024.
Proof.
  split; [discriminate|]. split; [reflexivity|]. split; [reflexivity|].
  refine (proj2 (items_per_view_bounds 700 1024 _)). discriminate.
Defined.

End HomepageFacts.
